(** * HomeMatch: the preference dialog, the vector store and the personalizer

    A shallow embedding of [src/search/search.py], [src/vector_store/store.py]
    and [src/personalization/personalize.py], followed by the properties of
    the natural-language specification that were checked against it.

    Python [str] values are modelled by [string].  The text is taken to be
    ASCII, on which [str.lower], [str.split], [str.strip] and [len] act as
    the functions of [PyStr] below; a byte outside ASCII is neither a letter
    with a lower case nor a blank there.  External services (the chat model
    behind a chain, the Chroma database, the file system, [uuid4]) are
    parameters or fields of an explicit world. *)

From Stdlib Require Import String Ascii List Bool Arith Lia ZArith DecimalString.
Import ListNotations.
Local Open Scope list_scope.
Local Open Scope string_scope.

(* ===================================================================== *)
(** ** Python string primitives *)
(* ===================================================================== *)

Module PyStr.

(** The line feed of a Python ["\n"]. *)
Definition nl : string := String (ascii_of_nat 10) EmptyString.

(** Truth value of a [str]: non-empty. *)
Definition truthy (s : string) : bool :=
  match s with EmptyString => false | String _ _ => true end.

Definition lower_char (c : ascii) : ascii :=
  let n := nat_of_ascii c in
  if ((65 <=? n) && (n <=? 90))%nat then ascii_of_nat (n + 32) else c.

(** [s.lower()] *)
Fixpoint lower (s : string) : string :=
  match s with
  | EmptyString => EmptyString
  | String c s' => String (lower_char c) (lower s')
  end.

(** [needle in hay] on strings: substring containment. *)
Fixpoint contains (needle hay : string) : bool :=
  if String.prefix needle hay then true
  else match hay with
       | EmptyString => false
       | String _ hay' => contains needle hay'
       end.

(** [c.isspace()] on ASCII: tab, line feed, vertical tab, form feed,
    carriage return, the four separators 0x1c-0x1f and the blank. *)
Definition isspace (c : ascii) : bool :=
  let n := nat_of_ascii c in
  (((9 <=? n) && (n <=? 13)) || ((28 <=? n) && (n <=? 32)))%nat.

(** [s.split()] with no separator: the maximal runs of non-blank
    characters, in order.  [cur] is the run being read, if any. *)
Fixpoint split_from (cur : option string) (s : string) : list string :=
  match s with
  | EmptyString => match cur with Some w => [w] | None => [] end
  | String c s' =>
      if isspace c then
        match cur with
        | Some w => w :: split_from None s'
        | None => split_from None s'
        end
      else
        match cur with
        | Some w => split_from (Some (w ++ String c EmptyString)) s'
        | None => split_from (Some (String c EmptyString)) s'
        end
  end.

Definition split (s : string) : list string := split_from None s.

Fixpoint lstrip (s : string) : string :=
  match s with
  | EmptyString => EmptyString
  | String c s' => if isspace c then lstrip s' else s
  end.

Fixpoint rstrip (s : string) : string :=
  match s with
  | EmptyString => EmptyString
  | String c s' =>
      match rstrip s' with
      | EmptyString => if isspace c then EmptyString else String c EmptyString
      | r => String c r
      end
  end.

(** [s.strip()] *)
Definition strip (s : string) : string := rstrip (lstrip s).

(** [sep.join(words)] *)
Definition join (sep : string) (words : list string) : string :=
  String.concat sep words.

(** [str(n)] for a non-negative [int]. *)
Definition str_of_nat (n : nat) : string :=
  NilZero.string_of_uint (Nat.to_uint n).

(** [needle] occurs in [hay] as a contiguous block. *)
Definition Substring (needle hay : string) : Prop :=
  exists before after, hay = before ++ needle ++ after.

End PyStr.

(** Outcome of a call that may raise.  [ValueError] is the built-in
    exception the repository raises itself; [ServiceError] stands for any
    exception coming out of an external service. *)
Inductive exception : Type :=
| ValueError (msg : string)
| ServiceError (detail : string).

Inductive result (A : Type) : Type :=
| Return (a : A)
| Raise (e : exception).
Arguments Return {A} a.
Arguments Raise {A} e.

(** A chain [prompt | llm | StrOutputParser()]: [invoke] maps the values
    bound to the prompt's variables to the generated text, or fails with the
    service's message. *)
Definition Chain : Type := list (string * string) -> string + string.

(** [l.append(x)] *)
Definition push {A : Type} (l : list A) (x : A) : list A := (l ++ [x])%list.

(* ===================================================================== *)
(** ** search/search.py *)
(* ===================================================================== *)

Module Search.
Import PyStr.

Inductive ConversationState : Type :=
| GREETING | PROPERTY_TYPE | BUDGET | BEDROOMS | BATHROOMS | OUTDOOR_SPACE
| AREAS | COMMUTE | TRANSPORT | AMENITIES | COMMUNITY | FEATURES
| PRIORITIES | CONFIRMATION | COMPLETE.

Definition state_eqb (a b : ConversationState) : bool :=
  match a, b with
  | GREETING, GREETING | PROPERTY_TYPE, PROPERTY_TYPE | BUDGET, BUDGET
  | BEDROOMS, BEDROOMS | BATHROOMS, BATHROOMS
  | OUTDOOR_SPACE, OUTDOOR_SPACE | AREAS, AREAS | COMMUTE, COMMUTE
  | TRANSPORT, TRANSPORT | AMENITIES, AMENITIES | COMMUNITY, COMMUNITY
  | FEATURES, FEATURES | PRIORITIES, PRIORITIES
  | CONFIRMATION, CONFIRMATION | COMPLETE, COMPLETE => true
  | _, _ => false
  end.

(** The dataclass [BuyerPreferences]. *)
Record BuyerPreferences : Type := mkBuyerPreferences {
  property_type : string;
  budget_range : string;
  bedrooms : string;
  bathrooms : string;
  outdoor_space : string;
  preferred_areas : string;
  commute_location : string;
  commute_time : string;
  transport_preference : string;
  transport_priority : string;
  amenities : string;
  community_type : string;
  must_have_features : string;
  deal_breakers : string;
  special_requirements : string;
  top_priorities : string;
  additional_info : string
}.

(** [BuyerPreferences()]: every field takes its default [""]. *)
Definition BuyerPreferences_default : BuyerPreferences :=
  mkBuyerPreferences "" "" "" "" "" "" "" "" "" "" "" "" "" "" "" "" "".

(** Names of the attributes of a [BuyerPreferences]. *)
Inductive Field : Type :=
| f_property_type | f_budget_range | f_bedrooms | f_bathrooms
| f_outdoor_space | f_preferred_areas | f_commute_location | f_commute_time
| f_transport_preference | f_transport_priority | f_amenities
| f_community_type | f_must_have_features | f_deal_breakers
| f_special_requirements | f_top_priorities | f_additional_info.

Definition all_fields : list Field :=
  [ f_property_type; f_budget_range; f_bedrooms; f_bathrooms;
    f_outdoor_space; f_preferred_areas; f_commute_location; f_commute_time;
    f_transport_preference; f_transport_priority; f_amenities;
    f_community_type; f_must_have_features; f_deal_breakers;
    f_special_requirements; f_top_priorities; f_additional_info ].

Definition field_eqb (a b : Field) : bool :=
  match a, b with
  | f_property_type, f_property_type | f_budget_range, f_budget_range
  | f_bedrooms, f_bedrooms | f_bathrooms, f_bathrooms
  | f_outdoor_space, f_outdoor_space
  | f_preferred_areas, f_preferred_areas
  | f_commute_location, f_commute_location
  | f_commute_time, f_commute_time
  | f_transport_preference, f_transport_preference
  | f_transport_priority, f_transport_priority
  | f_amenities, f_amenities | f_community_type, f_community_type
  | f_must_have_features, f_must_have_features
  | f_deal_breakers, f_deal_breakers
  | f_special_requirements, f_special_requirements
  | f_top_priorities, f_top_priorities
  | f_additional_info, f_additional_info => true
  | _, _ => false
  end.

(** [getattr(p, f)] *)
Definition getattr (f : Field) (p : BuyerPreferences) : string :=
  match f with
  | f_property_type => property_type p
  | f_budget_range => budget_range p
  | f_bedrooms => bedrooms p
  | f_bathrooms => bathrooms p
  | f_outdoor_space => outdoor_space p
  | f_preferred_areas => preferred_areas p
  | f_commute_location => commute_location p
  | f_commute_time => commute_time p
  | f_transport_preference => transport_preference p
  | f_transport_priority => transport_priority p
  | f_amenities => amenities p
  | f_community_type => community_type p
  | f_must_have_features => must_have_features p
  | f_deal_breakers => deal_breakers p
  | f_special_requirements => special_requirements p
  | f_top_priorities => top_priorities p
  | f_additional_info => additional_info p
  end.

(** [p.f = v]: the record with attribute [f] replaced. *)
Definition setattr (f : Field) (v : string) (p : BuyerPreferences)
  : BuyerPreferences :=
  let pick g := if field_eqb f g then v else getattr g p in
  mkBuyerPreferences
    (pick f_property_type) (pick f_budget_range) (pick f_bedrooms)
    (pick f_bathrooms) (pick f_outdoor_space) (pick f_preferred_areas)
    (pick f_commute_location) (pick f_commute_time)
    (pick f_transport_preference) (pick f_transport_priority)
    (pick f_amenities) (pick f_community_type) (pick f_must_have_features)
    (pick f_deal_breakers) (pick f_special_requirements)
    (pick f_top_priorities) (pick f_additional_info).

(** The mutable part of a [PropertyPreferenceCollector]; its [llm] is the
    chain handed to [generate_semantic_query]. *)
Record PropertyPreferenceCollector : Type := mkCollector {
  preferences : BuyerPreferences;
  state : ConversationState;
  conversation_history : list string
}.

(** [__init__], and the object after [reset()]. *)
Definition new_collector : PropertyPreferenceCollector :=
  mkCollector BuyerPreferences_default GREETING [].

Definition reset (self : PropertyPreferenceCollector)
  : PropertyPreferenceCollector := new_collector.

Definition is_complete (self : PropertyPreferenceCollector) : bool :=
  state_eqb (state self) COMPLETE.

(** *** Methods as commands

    A method body runs against the object and records every assignment it
    makes to an attribute of [self.preferences] or to [self.state]. *)

Inductive Assignment : Type :=
| SetPreference (f : Field) (v : string)
| SetState (s : ConversationState).

Definition Cmd (A : Type) : Type :=
  PropertyPreferenceCollector ->
  A * PropertyPreferenceCollector * list Assignment.

Definition ret {A} (a : A) : Cmd A := fun self => (a, self, []).

Definition bind {A B} (c : Cmd A) (k : A -> Cmd B) : Cmd B :=
  fun self =>
    let '(a, self1, log1) := c self in
    let '(b, self2, log2) := k a self1 in
    (b, self2, (log1 ++ log2)%list).

Declare Scope cmd_scope.
Delimit Scope cmd_scope with cmd.
Notation "x <- c ;; k" := (bind c (fun x => k))
  (at level 61, c at next level, right associativity) : cmd_scope.
Notation "c ;; k" := (bind c (fun _ => k))
  (at level 61, right associativity) : cmd_scope.
Local Open Scope cmd_scope.

Definition get_state : Cmd ConversationState :=
  fun self => (state self, self, []).

Definition get_preferences : Cmd BuyerPreferences :=
  fun self => (preferences self, self, []).

(** [self.preferences.f = v] *)
Definition set_preference (f : Field) (v : string) : Cmd unit :=
  fun self =>
    (tt,
     mkCollector (setattr f v (preferences self)) (state self)
       (conversation_history self),
     [SetPreference f v]).

(** [self.state = s] *)
Definition set_state (s : ConversationState) : Cmd unit :=
  fun self =>
    (tt,
     mkCollector (preferences self) s (conversation_history self),
     [SetState s]).

(** [self.conversation_history.append(line)] *)
Definition history_append (line : string) : Cmd unit :=
  fun self =>
    (tt,
     mkCollector (preferences self) (state self)
       (push (conversation_history self) line),
     []).

(** One conditional line of [_generate_summary]. *)
Definition summary_line (label value : string) (summary : string) : string :=
  if truthy value then summary ++ "• " ++ label ++ ": " ++ value ++ nl
  else summary.

Definition _generate_summary (p : BuyerPreferences) : string :=
  let summary :=
    "Let me confirm what I've understood about your preferences:" ++ nl ++ nl in
  let summary := summary_line "Property type" (property_type p) summary in
  let summary := summary_line "Budget" (budget_range p) summary in
  let summary := summary_line "Bedrooms" (bedrooms p) summary in
  let summary := summary_line "Bathrooms" (bathrooms p) summary in
  let summary := summary_line "Outdoor space" (outdoor_space p) summary in
  let summary := summary_line "Preferred areas" (preferred_areas p) summary in
  let summary := summary_line "Commute" (commute_location p) summary in
  let summary := summary_line "Transport" (transport_preference p) summary in
  let summary := summary_line "Amenities" (amenities p) summary in
  let summary := summary_line "Community type" (community_type p) summary in
  let summary := summary_line "Features" (must_have_features p) summary in
  let summary := summary_line "Top priorities" (top_priorities p) summary in
  summary ++ nl ++
  "Is this correct? If there's anything else important I should know about your ideal property, please let me know.".

Definition process_response (user_input : string) : Cmd string :=
  history_append ("User: " ++ user_input) ;;
  st <- get_state ;;
  response <-
    match st with
    | GREETING =>
        set_preference f_property_type user_input ;;
        set_state BUDGET ;;
        ret "Great! What's your budget range?"
    | BUDGET =>
        set_preference f_budget_range user_input ;;
        set_state BEDROOMS ;;
        ret "How many bedrooms do you need? Any flexibility on this?"
    | BEDROOMS =>
        set_preference f_bedrooms user_input ;;
        set_state BATHROOMS ;;
        ret "Any preference on bathrooms? Is an en-suite important?"
    | BATHROOMS =>
        set_preference f_bathrooms user_input ;;
        set_state OUTDOOR_SPACE ;;
        ret "Do you need outdoor space? Garden, balcony, or roof terrace?"
    | OUTDOOR_SPACE =>
        set_preference f_outdoor_space user_input ;;
        set_state AREAS ;;
        ret "Are there specific areas in London you're interested in or want to avoid?"
    | AREAS =>
        set_preference f_preferred_areas user_input ;;
        set_state COMMUTE ;;
        ret "Where do you need to commute to for work? And what's your acceptable commute time?"
    | COMMUTE =>
        set_preference f_commute_location user_input ;;
        set_state TRANSPORT ;;
        ret "Do you prefer tube, bus, rail, or are you flexible with transport? How important are direct transport links?"
    | TRANSPORT =>
        set_preference f_transport_preference user_input ;;
        set_state AMENITIES ;;
        ret "What's important to have nearby: shops, restaurants, parks, gyms, schools? Do you prefer busy areas with nightlife or quieter residential areas?"
    | AMENITIES =>
        set_preference f_amenities user_input ;;
        set_state COMMUNITY ;;
        ret "Do you prefer established family neighborhoods, trendy up-and-coming areas, or central locations?"
    | COMMUNITY =>
        set_preference f_community_type user_input ;;
        set_state FEATURES ;;
        ret "Any must-have features (parking, period features, modern kitchen, etc.) or deal-breakers? Any special requirements?"
    | FEATURES =>
        set_preference f_must_have_features user_input ;;
        set_state PRIORITIES ;;
        ret "If you had to choose, what are your top 3 most important factors from everything we've discussed?"
    | PRIORITIES =>
        set_preference f_top_priorities user_input ;;
        set_state CONFIRMATION ;;
        p <- get_preferences ;;
        ret (_generate_summary p)
    | CONFIRMATION =>
        if contains "yes" (lower user_input)
           || contains "correct" (lower user_input)
        then
          set_state COMPLETE ;;
          ret "Perfect! I'll now generate your property search query."
        else
          set_preference f_additional_info user_input ;;
          set_state COMPLETE ;;
          ret "Thanks for the clarification. I'll now generate your property search query."
    | _ =>
        ret "I'm not sure how to respond to that. Could you try again?"
    end ;;
  history_append ("Assistant: " ++ response) ;;
  ret response.

(** The variables [generate_semantic_query] binds in its prompt. *)
Definition query_variables (p : BuyerPreferences) : list (string * string) :=
  [ ("property_type", property_type p);
    ("budget_range", budget_range p);
    ("bedrooms", bedrooms p);
    ("bathrooms", bathrooms p);
    ("outdoor_space", outdoor_space p);
    ("preferred_areas", preferred_areas p);
    ("commute_location", commute_location p);
    ("transport_preference", transport_preference p);
    ("amenities", amenities p);
    ("community_type", community_type p);
    ("must_have_features", must_have_features p);
    ("top_priorities", top_priorities p);
    ("additional_info", additional_info p) ].

Definition generate_semantic_query (chain : Chain)
    (self : PropertyPreferenceCollector) : result string :=
  if negb (state_eqb (state self) COMPLETE) then
    Raise (ValueError "Cannot generate query - preference collection not complete")
  else
    match chain (query_variables (preferences self)) with
    | inl query => Return (strip query)
    | inr failure => Raise (ServiceError failure)
    end.

(** *** Driving a conversation

    The loop of the demo runner: feed the answers one by one.  The result
    keeps, for every assignment, the state the collector was in when the
    answer that caused it arrived. *)

Definition outcome_response {A} (o : A * PropertyPreferenceCollector * list Assignment) : A :=
  fst (fst o).
Definition outcome_self {A} (o : A * PropertyPreferenceCollector * list Assignment)
  : PropertyPreferenceCollector := snd (fst o).
Definition outcome_log {A} (o : A * PropertyPreferenceCollector * list Assignment)
  : list Assignment := snd o.

Fixpoint converse (self : PropertyPreferenceCollector) (answers : list string)
  : PropertyPreferenceCollector * list (ConversationState * Assignment) :=
  match answers with
  | [] => (self, [])
  | user_input :: rest =>
      let o := process_response user_input self in
      let '(final, trace) := converse (outcome_self o) rest in
      (final, (map (pair (state self)) (outcome_log o) ++ trace)%list)
  end.

(** *** Vocabulary for the properties *)

(** The test of the confirmation branch. *)
Definition affirmative (user_input : string) : bool :=
  contains "yes" (lower user_input) || contains "correct" (lower user_input).

(** The twelve fields the question states fill, in the order of the
    questions, and the states that ask for them. *)
Definition dialog_fields : list Field :=
  [ f_property_type; f_budget_range; f_bedrooms; f_bathrooms;
    f_outdoor_space; f_preferred_areas; f_commute_location;
    f_transport_preference; f_amenities; f_community_type;
    f_must_have_features; f_top_priorities ].

Definition dialog_states : list ConversationState :=
  [ GREETING; BUDGET; BEDROOMS; BATHROOMS; OUTDOOR_SPACE; AREAS; COMMUTE;
    TRANSPORT; AMENITIES; COMMUNITY; FEATURES; PRIORITIES ].

(** The thirteen fields a full conversation can reach. *)
Definition targeted_fields : list Field :=
  (dialog_fields ++ [f_additional_info])%list.

(** The fields no state of the dialog assigns. *)
Definition unasked_fields : list Field :=
  [ f_commute_time; f_transport_priority; f_deal_breakers;
    f_special_requirements ].

Definition read_fields (fields : list Field) (p : BuyerPreferences)
  : list string :=
  map (fun f => getattr f p) fields.

(** The assignments to [self.state] in a log, in order. *)
Fixpoint state_writes (log : list Assignment) : list ConversationState :=
  match log with
  | [] => []
  | SetState s :: log' => s :: state_writes log'
  | SetPreference _ _ :: log' => state_writes log'
  end.

(** The assignments to field [f] in the trace of a conversation: the state
    in which each was made and the value written. *)
Fixpoint writes_of (f : Field) (trace : list (ConversationState * Assignment))
  : list (ConversationState * string) :=
  match trace with
  | [] => []
  | (st, SetPreference g v) :: trace' =>
      if field_eqb f g then (st, v) :: writes_of f trace'
      else writes_of f trace'
  | (_, SetState _) :: trace' => writes_of f trace'
  end.

(** *** Vocabulary for further properties *)

(** The state each state hands over to, whatever the answer; the states
    handled by the final [else] keep the state. *)
Definition next_state (st : ConversationState) : ConversationState :=
  match st with
  | GREETING => BUDGET
  | PROPERTY_TYPE => PROPERTY_TYPE
  | BUDGET => BEDROOMS
  | BEDROOMS => BATHROOMS
  | BATHROOMS => OUTDOOR_SPACE
  | OUTDOOR_SPACE => AREAS
  | AREAS => COMMUTE
  | COMMUTE => TRANSPORT
  | TRANSPORT => AMENITIES
  | AMENITIES => COMMUNITY
  | COMMUNITY => FEATURES
  | FEATURES => PRIORITIES
  | PRIORITIES => CONFIRMATION
  | CONFIRMATION => COMPLETE
  | COMPLETE => COMPLETE
  end.

(** The number of answers a collector in state [st] still takes before it
    is complete; no answer completes a collector in [PROPERTY_TYPE], for
    which the value is of no use. *)
Definition answers_left (st : ConversationState) : nat :=
  match st with
  | GREETING => 13
  | PROPERTY_TYPE => 0
  | BUDGET => 12
  | BEDROOMS => 11
  | BATHROOMS => 10
  | OUTDOOR_SPACE => 9
  | AREAS => 8
  | COMMUTE => 7
  | TRANSPORT => 6
  | AMENITIES => 5
  | COMMUNITY => 4
  | FEATURES => 3
  | PRIORITIES => 2
  | CONFIRMATION => 1
  | COMPLETE => 0
  end.

(** The labels of the summary with the values they announce, in order. *)
Definition summary_fields (p : BuyerPreferences) : list (string * string) :=
  [ ("Property type", property_type p);
    ("Budget", budget_range p);
    ("Bedrooms", bedrooms p);
    ("Bathrooms", bathrooms p);
    ("Outdoor space", outdoor_space p);
    ("Preferred areas", preferred_areas p);
    ("Commute", commute_location p);
    ("Transport", transport_preference p);
    ("Amenities", amenities p);
    ("Community type", community_type p);
    ("Features", must_have_features p);
    ("Top priorities", top_priorities p) ].

Definition summary_header : string :=
  "Let me confirm what I've understood about your preferences:" ++ nl ++ nl.

Definition summary_footer : string :=
  nl ++
  "Is this correct? If there's anything else important I should know about your ideal property, please let me know.".

(** The bullet line of one field. *)
Definition bullet (field : string * string) : string :=
  "• " ++ fst field ++ ": " ++ snd field ++ nl.

(** The summary as a text in three parts: the header, one bullet line for
    each field that has a value, the closing question. *)
Definition spec_summary (p : BuyerPreferences) : string :=
  summary_header
  ++ String.concat ""
       (map bullet (filter (fun field => truthy (snd field)) (summary_fields p)))
  ++ summary_footer.

(** [answers] padded with empty strings to [n] entries, or cut to [n]. *)
Definition first_answers (n : nat) (answers : list string) : list string :=
  firstn n (answers ++ repeat "" n)%list.

End Search.

(* ===================================================================== *)
(** ** Values shared by the store and the personalizer *)
(* ===================================================================== *)

(** A Python [dict] from [str] to [str], in insertion order. *)
Definition Dict : Type := list (string * string).

(** [d.get(key, default)] *)
Fixpoint dict_get (key default : string) (d : Dict) : string :=
  match d with
  | [] => default
  | (k, v) :: d' => if String.eqb k key then v else dict_get key default d'
  end.

(** [str(e)] for an exception. *)
Definition exception_str (e : exception) : string :=
  match e with
  | ValueError msg => msg
  | ServiceError detail => detail
  end.

(** The dictionaries [semantic_search] returns, with their three keys
    ["content"], ["metadata"] and ["similarity_score"].  The score is a
    float the code only carries around, so its type is left open. *)
Record SearchResult (Score : Type) : Type := mkSearchResult {
  content : string;
  metadata : Dict;
  similarity_score : Score
}.
Arguments mkSearchResult {Score} _ _ _.
Arguments content {Score} _.
Arguments metadata {Score} _.
Arguments similarity_score {Score} _.

(* ===================================================================== *)
(** ** personalization/personalize.py *)
(* ===================================================================== *)

Module Personalize.
Import PyStr.
Import Search.

(** The dataclass [PersonalizedListing]; [listing_score] and
    [listing_metadata] are its attributes [similarity_score] and
    [metadata]. *)
Record PersonalizedListing (Score : Type) : Type := mkPersonalizedListing {
  original_content : string;
  personalized_description : string;
  category : string;
  listing_score : Score;
  preference_highlights : list string;
  listing_metadata : Dict
}.
Arguments mkPersonalizedListing {Score} _ _ _ _ _ _.
Arguments original_content {Score} _.
Arguments personalized_description {Score} _.
Arguments category {Score} _.
Arguments listing_score {Score} _.
Arguments preference_highlights {Score} _.
Arguments listing_metadata {Score} _.

Definition _extract_preference_context (preferences : BuyerPreferences) : Dict :=
  [ ("property_focus", property_type preferences);
    ("budget_context", budget_range preferences);
    ("location_priorities", preferred_areas preferences);
    ("amenity_priorities", amenities preferences);
    ("transport_priorities", transport_preference preferences);
    ("feature_priorities", must_have_features preferences);
    ("top_priorities", top_priorities preferences) ].

(** The variables bound in the personalization prompt. *)
Definition personalization_variables (original_content : string)
    (preferences : BuyerPreferences) (preference_context : Dict)
    (category : string) : list (string * string) :=
  [ ("original_content", original_content);
    ("property_type", property_type preferences);
    ("budget_range", budget_range preferences);
    ("bedrooms", bedrooms preferences);
    ("bathrooms", bathrooms preferences);
    ("outdoor_space", outdoor_space preferences);
    ("preferred_areas", preferred_areas preferences);
    ("commute_location", commute_location preferences);
    ("transport_preference", transport_preference preferences);
    ("amenities", amenities preferences);
    ("community_type", community_type preferences);
    ("must_have_features", must_have_features preferences);
    ("top_priorities", top_priorities preferences);
    ("category", category);
    ("location_priorities", dict_get "location_priorities" "" preference_context);
    ("feature_priorities", dict_get "feature_priorities" "" preference_context) ].

Definition _generate_personalized_description (chain : Chain)
    (original_content : string) (preferences : BuyerPreferences)
    (preference_context : Dict) (category : string) : result string :=
  match chain (personalization_variables original_content preferences
                 preference_context category) with
  | inl personalized_content => Return (strip personalized_content)
  | inr failure => Raise (ServiceError failure)
  end.

(** [any(keyword in content_lower for keyword in keywords)] *)
Definition any_in (keywords : list string) (content_lower : string) : bool :=
  existsb (fun keyword => contains keyword content_lower) keywords.

Definition _identify_preference_highlights (original_content : string)
    (preferences : BuyerPreferences) : list string :=
  let highlights : list string := [] in
  let content_lower := lower original_content in
  (* property type *)
  let highlights :=
    if truthy (property_type preferences)
       && contains (lower (property_type preferences)) content_lower
    then push highlights ("Property Type: " ++ property_type preferences)
    else highlights in
  (* bedrooms *)
  let highlights :=
    if truthy (bedrooms preferences) then
      let bedroom_keywords := ["bedroom"; "bed"] in
      if any_in bedroom_keywords content_lower
      then push highlights ("Bedroom Requirements: " ++ bedrooms preferences)
      else highlights
    else highlights in
  (* outdoor space *)
  let highlights :=
    if truthy (outdoor_space preferences)
       && negb (String.eqb (lower (outdoor_space preferences)) "no")
    then
      let outdoor_keywords := ["garden"; "balcony"; "terrace"; "outdoor"; "patio"] in
      if any_in outdoor_keywords content_lower
      then push highlights "Outdoor Space Available"
      else highlights
    else highlights in
  (* areas *)
  let highlights :=
    if truthy (preferred_areas preferences) then
      let area_words := split (lower (preferred_areas preferences)) in
      if existsb (fun word => contains word content_lower)
           (filter (fun word => 3 <? String.length word)%nat area_words)
      then push highlights ("Preferred Location: " ++ preferred_areas preferences)
      else highlights
    else highlights in
  (* transport *)
  let highlights :=
    if truthy (transport_preference preferences) then
      let transport_keywords :=
        ["tube"; "station"; "transport"; "bus"; "rail"; "line"] in
      if any_in transport_keywords content_lower
      then push highlights "Good Transport Links"
      else highlights
    else highlights in
  (* amenities *)
  let highlights :=
    if truthy (amenities preferences) then
      let amenity_words := split (lower (amenities preferences)) in
      let matched_amenities :=
        filter (fun word => contains word content_lower
                            && (3 <? String.length word)%nat) amenity_words in
      match matched_amenities with
      | [] => highlights
      | _ :: _ =>
          push highlights
            ("Desired Amenities: " ++ join ", " (firstn 3 matched_amenities))
      end
    else highlights in
  highlights.

Section Listings.
Variable Score : Type.

(** The listing built in the [try] block. *)
Definition tailored_listing (result : SearchResult Score)
    (personalized_description : string) (highlights : list string)
  : PersonalizedListing Score :=
  mkPersonalizedListing (content result) personalized_description
    (dict_get "category" "Unknown" (metadata result))
    (similarity_score result) highlights (metadata result).

(** The listing built in the [except] block. *)
Definition fallback_listing (result : SearchResult Score)
  : PersonalizedListing Score :=
  mkPersonalizedListing (content result) (content result)
    (dict_get "category" "Unknown" (metadata result))
    (similarity_score result) [] (metadata result).

(** The body of the [for] loop: the listings collected so far and the
    lines printed so far, extended by one result. *)
Definition personalize_one (chain : Chain)
    (buyer_preferences : BuyerPreferences) (preference_context : Dict)
    (acc : list (PersonalizedListing Score) * list string)
    (result : SearchResult Score)
  : list (PersonalizedListing Score) * list string :=
  let '(personalized_listings, printed) := acc in
  match _generate_personalized_description chain (content result)
          buyer_preferences preference_context
          (dict_get "category" "Unknown" (metadata result)) with
  | Return personalized_description =>
      let highlights :=
        _identify_preference_highlights (content result) buyer_preferences in
      (push personalized_listings
         (tailored_listing result personalized_description highlights),
       printed)
  | Raise e =>
      (push personalized_listings (fallback_listing result),
       push printed
         ("Warning: Could not personalize listing - " ++ exception_str e))
  end.

(** Returns the personalized listings and the warnings printed. *)
Definition personalize_listings (chain : Chain)
    (search_results : list (SearchResult Score))
    (buyer_preferences : BuyerPreferences)
  : list (PersonalizedListing Score) * list string :=
  let preference_context := _extract_preference_context buyer_preferences in
  fold_left (personalize_one chain buyer_preferences preference_context)
    search_results ([], []).

End Listings.
Arguments tailored_listing {Score} _ _ _.
Arguments fallback_listing {Score} _.
Arguments personalize_one {Score} _ _ _ _ _.
Arguments personalize_listings {Score} _ _ _.

(** The listing [personalize_listings] makes of one search result: the
    tailored one when the rewrite succeeds, the fallback when it raises. *)
Definition listing_for {Score : Type} (chain : Chain)
    (buyer_preferences : BuyerPreferences) (result : SearchResult Score)
  : PersonalizedListing Score :=
  match _generate_personalized_description chain (content result)
          buyer_preferences (_extract_preference_context buyer_preferences)
          (dict_get "category" "Unknown" (metadata result)) with
  | Return personalized_description =>
      tailored_listing result personalized_description
        (_identify_preference_highlights (content result) buyer_preferences)
  | Raise _ => fallback_listing result
  end.

(** A chat service that is down. *)
Definition unavailable : Chain := fun _ => inr "Connection error.".

(** One search result of the demo, scores being natural numbers. *)
Definition sample_result : SearchResult nat :=
  mkSearchResult "A bright 2 bedroom flat near the tube with a balcony"
    [ ("id", "young_professionals_0_0f8fad5b");
      ("category", "young_professionals");
      ("source", "generated_listings") ]
    1.


(** A search result whose metadata has no category. *)
Definition untagged_result : SearchResult nat :=
  mkSearchResult "A 4 bedroom house with a large garden"
    [ ("id", "family_areas_0_0f8fad5b"); ("source", "generated_listings") ]
    2.

(** The rewrite request sent for one search result. *)
Definition rewrite_request {Score : Type}
    (buyer_preferences : BuyerPreferences) (result : SearchResult Score)
  : list (string * string) :=
  personalization_variables (content result) buyer_preferences
    (_extract_preference_context buyer_preferences)
    (dict_get "category" "Unknown" (metadata result)).

(** *** The highlight rules as the specification words them

    One rule per preference field; a rule yields its label when it finds
    evidence for the preference in the content, and nothing otherwise. *)

Definition found_in (content word : string) : bool :=
  contains word (lower content).

Definition long_word (word : string) : bool := (3 <? String.length word)%nat.

Definition outdoor_vocabulary : list string :=
  ["garden"; "balcony"; "terrace"; "outdoor"; "patio"].

Definition transport_vocabulary : list string :=
  ["tube"; "station"; "transport"; "bus"; "rail"; "line"].

Definition rule_property_type (content : string) (p : BuyerPreferences)
  : option string :=
  if truthy (property_type p) && found_in content (lower (property_type p))
  then Some ("Property Type: " ++ property_type p) else None.

Definition rule_bedrooms (content : string) (p : BuyerPreferences)
  : option string :=
  if truthy (bedrooms p)
     && (found_in content "bedroom" || found_in content "bed")
  then Some ("Bedroom Requirements: " ++ bedrooms p) else None.

Definition rule_outdoor_space (content : string) (p : BuyerPreferences)
  : option string :=
  if truthy (outdoor_space p)
     && negb (String.eqb (lower (outdoor_space p)) "no")
     && existsb (found_in content) outdoor_vocabulary
  then Some "Outdoor Space Available" else None.

Definition rule_preferred_areas (content : string) (p : BuyerPreferences)
  : option string :=
  if truthy (preferred_areas p)
     && existsb (fun w => long_word w && found_in content w)
          (split (lower (preferred_areas p)))
  then Some ("Preferred Location: " ++ preferred_areas p) else None.

Definition rule_transport (content : string) (p : BuyerPreferences)
  : option string :=
  if truthy (transport_preference p)
     && existsb (found_in content) transport_vocabulary
  then Some "Good Transport Links" else None.

(** The words of the amenities answer that are long and occur in the
    content, in the order of the answer. *)
Definition matched_amenity_words (content : string) (p : BuyerPreferences)
  : list string :=
  filter (fun w => long_word w && found_in content w)
    (split (lower (amenities p))).

Definition rule_amenities (content : string) (p : BuyerPreferences)
  : option string :=
  if truthy (amenities p)
     && negb (Nat.eqb (length (matched_amenity_words content p)) 0)
  then Some ("Desired Amenities: "
             ++ join ", " (firstn 3 (matched_amenity_words content p)))
  else None.

Definition highlight_rules
  : list (string -> BuyerPreferences -> option string) :=
  [ rule_property_type; rule_bedrooms; rule_outdoor_space;
    rule_preferred_areas; rule_transport; rule_amenities ].

Definition label_list (o : option string) : list string :=
  match o with Some label => [label] | None => [] end.

(** Every rule is run, and the labels are listed in rule order. *)
Definition spec_highlights (content : string) (p : BuyerPreferences)
  : list string :=
  flat_map (fun rule => label_list (rule content p)) highlight_rules.

(** What each rule looks for, in the words of the specification: when the
    rule fires, and the label it then gives. *)
Record RuleSpec : Type := mkRuleSpec {
  fires : string -> BuyerPreferences -> Prop;
  label : string -> BuyerPreferences -> string
}.

Definition stated (answer : string) : Prop := answer <> "".

(** [word] occurs in the content, compared in lower case. *)
Definition mentions (content word : string) : Prop :=
  Substring word (lower content).

Definition property_type_spec : RuleSpec :=
  mkRuleSpec
    (fun c p => stated (property_type p)
                /\ mentions c (lower (property_type p)))
    (fun c p => "Property Type: " ++ property_type p).

Definition bedrooms_spec : RuleSpec :=
  mkRuleSpec
    (fun c p => stated (bedrooms p)
                /\ (mentions c "bedroom" \/ mentions c "bed"))
    (fun c p => "Bedroom Requirements: " ++ bedrooms p).

Definition outdoor_space_spec : RuleSpec :=
  mkRuleSpec
    (fun c p => stated (outdoor_space p)
                /\ lower (outdoor_space p) <> "no"
                /\ exists keyword,
                     In keyword outdoor_vocabulary /\ mentions c keyword)
    (fun c p => "Outdoor Space Available").

Definition preferred_areas_spec : RuleSpec :=
  mkRuleSpec
    (fun c p => stated (preferred_areas p)
                /\ exists word,
                     In word (split (lower (preferred_areas p)))
                     /\ 3 < String.length word /\ mentions c word)
    (fun c p => "Preferred Location: " ++ preferred_areas p).

Definition transport_spec : RuleSpec :=
  mkRuleSpec
    (fun c p => stated (transport_preference p)
                /\ exists keyword,
                     In keyword transport_vocabulary /\ mentions c keyword)
    (fun c p => "Good Transport Links").

Definition amenities_spec : RuleSpec :=
  mkRuleSpec
    (fun c p => stated (amenities p)
                /\ exists word,
                     In word (split (lower (amenities p)))
                     /\ 3 < String.length word /\ mentions c word)
    (fun c p => "Desired Amenities: "
                ++ join ", " (firstn 3 (matched_amenity_words c p))).


(** A rule implements its specification when it gives the label exactly
    when the rule fires, and nothing otherwise. *)
Definition implements (rule : string -> BuyerPreferences -> option string)
    (spec : RuleSpec) : Prop :=
  forall c p,
    (fires spec c p -> rule c p = Some (label spec c p))
    /\ (~ fires spec c p -> rule c p = None).

End Personalize.

(* ===================================================================== *)
(** ** vector_store/store.py *)
(* ===================================================================== *)

Module Store.
Import PyStr.

Record PropertyListing : Type := mkPropertyListing {
  id : string;
  category : string;
  content : string
}.

(** A LangChain [Document]. *)
Record Document : Type := mkDocument {
  page_content : string;
  metadata : Dict
}.

(** What opening and parsing the corpus file gives: the two exceptions the
    loader handles, or the mapping from category to listing texts. *)
Inductive CorpusFile : Type :=
| FileNotFoundError
| JSONDecodeError
| Parsed (raw_data : list (string * list string)).

(** The calls made to the Chroma database. *)
Inductive ChromaCall : Type :=
| OpenCollection      (* Chroma(persist_directory=..., collection_name=...) *)
| CountCollection     (* vectorstore._collection.count() *)
| FromDocuments       (* Chroma.from_documents(...) *)
| SimilaritySearch.   (* vectorstore.similarity_search_with_score(...) *)

(** A handle on a persisted collection.  Python gives such an object the
    truth value [True]; only [None] fails the test [if not vectorstore]. *)
Record Chroma : Type := mkChroma {
  chroma_directory : string;
  collection_name : string
}.

Section World.
Variable Score : Type.

(** Everything outside the object: the corpus file, the documents of the
    persisted collection (none when it does not exist yet: opening it
    creates it empty), which database calls raise and with what message,
    the ranking computed by the database, the [uuid4] draws and the text
    printed so far.  An insertion that raises is taken to add nothing. *)
Record World : Type := mkWorld {
  corpus : CorpusFile;
  collection : list Document;
  chroma_fault : ChromaCall -> option string;
  nearest : list Document -> string -> Z -> option Dict ->
            list (Document * Score);
  uuid4 : nat -> string;
  uuids_drawn : nat;
  stdout : list string
}.

Definition print (line : string) (w : World) : World :=
  mkWorld (corpus w) (collection w) (chroma_fault w) (nearest w)
    (uuid4 w) (uuids_drawn w) (push (stdout w) line).

Definition draw_uuids (n : nat) (w : World) : World :=
  mkWorld (corpus w) (collection w) (chroma_fault w) (nearest w)
    (uuid4 w) (uuids_drawn w + n) (stdout w).

Definition add_documents (documents : list Document) (w : World) : World :=
  mkWorld (corpus w) (collection w ++ documents)%list (chroma_fault w)
    (nearest w) (uuid4 w) (uuids_drawn w) (stdout w).

Record PropertyVectorStore : Type := mkStore {
  persist_directory : string;
  vectorstore : option Chroma
}.

(** [PropertyVectorStore(persist_directory)] *)
Definition new_store (persist_directory : string) : PropertyVectorStore :=
  mkStore persist_directory None.

Definition attach (self : PropertyVectorStore) : PropertyVectorStore :=
  mkStore (persist_directory self)
    (Some (mkChroma (persist_directory self) "london_properties")).

(** The inner loop over [enumerate(category_listings)]; [drawn] counts
    the identifiers generated before. *)
Fixpoint listings_of_category (uuid : nat -> string) (category : string)
    (i drawn : nat) (category_listings : list string)
  : list PropertyListing :=
  match category_listings with
  | [] => []
  | listing_text :: rest =>
      let listing_id :=
        category ++ "_" ++ str_of_nat i ++ "_"
        ++ substring 0 8 (uuid drawn) in
      mkPropertyListing listing_id category listing_text
      :: listings_of_category uuid category (S i) (S drawn) rest
  end.

(** The outer loop over [raw_data.items()]. *)
Fixpoint listings_of_items (uuid : nat -> string) (drawn : nat)
    (items : list (string * list string)) : list PropertyListing :=
  match items with
  | [] => []
  | (category, category_listings) :: rest =>
      (listings_of_category uuid category 0 drawn category_listings
       ++ listings_of_items uuid (drawn + length category_listings) rest)%list
  end.

Definition load_listings_from_json (json_file : string) (w : World)
  : list PropertyListing * World :=
  match corpus w with
  | Parsed raw_data =>
      let listings :=
        listings_of_items (uuid4 w) (uuids_drawn w) raw_data in
      (listings,
       print ("Loaded " ++ str_of_nat (length listings)
              ++ " property listings from " ++ json_file)
         (draw_uuids (length listings) w))
  | FileNotFoundError =>
      ([], print ("Error: " ++ json_file
                  ++ " not found. Please generate listings first.") w)
  | JSONDecodeError =>
      ([], print ("Error: Invalid JSON in " ++ json_file) w)
  end.

Definition create_documents (listings : list PropertyListing)
  : list Document :=
  map (fun listing =>
         mkDocument (content listing)
           [ ("id", id listing);
             ("category", category listing);
             ("source", "generated_listings") ])
      listings.

Definition initialize_vectorstore (documents : list Document)
    (w : World) (self : PropertyVectorStore)
  : result unit * World * PropertyVectorStore :=
  let w := print "Creating embeddings and initializing vector store..." w in
  match chroma_fault w FromDocuments with
  | Some failure => (Raise (ServiceError failure), w, self)
  | None =>
      let w := add_documents documents w in
      let self := attach self in
      let w := print ("Vector store initialized with "
                      ++ str_of_nat (length documents)
                      ++ " property listings") w in
      let w := print ("Persisted to: " ++ persist_directory self) w in
      (Return tt, w, self)
  end.

Definition load_existing_vectorstore (w : World) (self : PropertyVectorStore)
  : bool * World * PropertyVectorStore :=
  match chroma_fault w OpenCollection with
  | Some e =>
      (false, print ("Could not load existing vector store: " ++ e) w, self)
  | None =>
      let self := attach self in
      match chroma_fault w CountCollection with
      | Some e =>
          (false, print ("Could not load existing vector store: " ++ e) w,
           self)
      | None =>
          let collection_count := length (collection w) in
          if (0 <? collection_count)%nat then
            (true,
             print ("Loaded existing vector store with "
                    ++ str_of_nat collection_count ++ " documents") w,
             self)
          else (false, print "Existing vector store is empty" w, self)
      end
  end.

(** [if filter_dict:] holds for a dictionary with an entry. *)
Definition filter_given (filter_dict : option Dict) : bool :=
  match filter_dict with
  | Some (_ :: _) => true
  | _ => false
  end.

Definition semantic_search (w : World) (self : PropertyVectorStore)
    (query : string) (k : Z) (filter_dict : option Dict)
  : result (list (SearchResult Score)) :=
  match vectorstore self with
  | None =>
      Raise (ValueError
               "Vector store not initialized. Call setup_vectorstore() first.")
  | Some _ =>
      match chroma_fault w SimilaritySearch with
      | Some failure => Raise (ServiceError failure)
      | None =>
          let results :=
            if filter_given filter_dict
            then nearest w (collection w) query k filter_dict
            else nearest w (collection w) query k None in
          Return
            (map (fun '(doc, score) =>
                    mkSearchResult (page_content doc) (metadata doc) score)
                 results)
      end
  end.

Definition setup_vectorstore (force_rebuild : bool)
    (w : World) (self : PropertyVectorStore)
  : result bool * World * PropertyVectorStore :=
  let '(loaded, w, self) :=
    if negb force_rebuild then load_existing_vectorstore w self
    else (false, w, self) in
  if negb force_rebuild && loaded then (Return true, w, self)
  else
    let w := print "Setting up new vector store..." w in
    let '(listings, w) := load_listings_from_json "data/listings.json" w in
    match listings with
    | [] =>
        (Return false,
         print "No listings found. Cannot create vector store." w, self)
    | _ :: _ =>
        let documents := create_documents listings in
        match initialize_vectorstore documents w self with
        | (Return _, w, self) => (Return true, w, self)
        | (Raise e, w, self) => (Raise e, w, self)
        end
    end.

(** Whether [setup_vectorstore] gets as far as reading the corpus. *)
Definition attempts_ingest (force_rebuild : bool)
    (w : World) (self : PropertyVectorStore) : bool :=
  force_rebuild || negb (fst (fst (load_existing_vectorstore w self))).

End World.

Arguments mkWorld {Score} _ _ _ _ _ _ _.
Arguments corpus {Score} _.
Arguments collection {Score} _.
Arguments chroma_fault {Score} _ _.
Arguments nearest {Score} _ _ _ _ _.
Arguments uuid4 {Score} _ _.
Arguments uuids_drawn {Score} _.
Arguments stdout {Score} _.
Arguments print {Score} _ _.
Arguments load_listings_from_json {Score} _ _.
Arguments initialize_vectorstore {Score} _ _ _.
Arguments load_existing_vectorstore {Score} _ _.
Arguments semantic_search {Score} _ _ _ _ _.
Arguments setup_vectorstore {Score} _ _ _.
Arguments attempts_ingest {Score} _ _ _.

(** *** A first run

    Nothing has been generated yet: there is no corpus file and the
    persisted collection is empty; the database itself works.  Scores are
    natural numbers here, and the database ranks in insertion order. *)
Definition first_run : World nat :=
  mkWorld FileNotFoundError []
    (fun _ => None)
    (fun documents _ k _ =>
       combine (firstn (Z.to_nat k) documents)
         (seq 0 (length (firstn (Z.to_nat k) documents))))
    (fun n => "0f8fad5b-d9cb-469f-a165-70867728950e")
    0 [].

(** The same, with a corpus file that is not valid JSON. *)
Definition broken_corpus_run : World nat :=
  mkWorld JSONDecodeError (collection first_run) (chroma_fault first_run)
    (nearest first_run) (uuid4 first_run) 0 [].

(** The store of [main()] after [setup_vectorstore()] on a first run, with
    what the call returned and the world it left. *)
Definition after_first_setup
  : result bool * World nat * PropertyVectorStore :=
  setup_vectorstore false first_run (new_store "data/chroma_db").

(** A run with a small corpus of two categories on an empty collection. *)
Definition sample_run : World nat :=
  mkWorld
    (Parsed [ ("family_areas",
               ["A 4 bedroom house with a large garden"]);
              ("young_professionals",
               ["A bright 2 bedroom flat near the tube with a balcony"]) ])
    (collection first_run) (chroma_fault first_run)
    (nearest first_run) (uuid4 first_run) 0 [].


(** The world left by a forced ingest of the sample corpus. *)
Definition populated_run : World nat :=
  snd (fst (setup_vectorstore true sample_run (new_store "data/chroma_db"))).

(** A run whose corpus file holds categories but no listing. *)
Definition empty_corpus_run : World nat :=
  mkWorld (Parsed [("family_areas", []); ("young_professionals", [])])
    (collection first_run) (chroma_fault first_run)
    (nearest first_run) (uuid4 first_run) 0 [].

(** *** [get_stats] *)

(** The values of the dictionary [get_stats] returns. *)
Inductive StatValue : Type :=
| IntValue (n : nat)
| StrValue (s : string).

Definition get_stats {Score : Type} (w : World Score)
    (self : PropertyVectorStore) : list (string * StatValue) :=
  match vectorstore self with
  | None => [("error", StrValue "Vector store not initialized")]
  | Some _ =>
      match chroma_fault w CountCollection with
      | None =>
          let total_docs := length (collection w) in
          [ ("total_documents", IntValue total_docs);
            ("persist_directory", StrValue (persist_directory self)) ]
      | Some e => [("error", StrValue e)]
      end
  end.

(** The number of listing texts of a parsed corpus. *)
Definition corpus_size (raw_data : list (string * list string)) : nat :=
  length (concat (map snd raw_data)).

End Store.

(* ===================================================================== *)
(** ** demo.py *)
(* ===================================================================== *)

Module Demo.
Import Search.

(** The scripted answers of the persona "Young Professionals". *)
Definition young_professionals : list string :=
  [ "modern flat";
    "£450,000 to £550,000";
    "1 bedroom, maybe 2 if budget allows";
    "1 bathroom is fine";
    "A balcony would be nice but not essential";
    "Clapham, Islington, or Shoreditch";
    "Central London, ideally under 30 minutes";
    "Tube access is essential, Northern or Central line preferred";
    "Cafes, restaurants, nightlife, gyms nearby";
    "Trendy areas with good nightlife";
    "Modern kitchen, good internet, secure building";
    "Transport links, nightlife, modern amenities";
    "Yes, sounds perfect" ].

(** The same buyer, adding a remark instead of confirming. *)
Definition young_professionals_remark : list string :=
  (firstn 12 young_professionals ++ ["A lift would help too"])%list.

(** The collector of that persona when the summary has been shown. *)
Definition awaiting_confirmation : PropertyPreferenceCollector :=
  fst (converse new_collector (firstn 12 young_professionals)).

(** The collector of that persona at the end of the conversation. *)
Definition finished : PropertyPreferenceCollector :=
  fst (converse new_collector young_professionals).

(** A collector put in the state no answer leads to. *)
Definition stranded : PropertyPreferenceCollector :=
  mkCollector (preferences awaiting_confirmation) PROPERTY_TYPE [].

(** *** The loops of the demo runner *)

(** The [for] loop of [run_persona_demo]: answers are fed until the
    collector is complete; the rest of the script is left unread. *)
Fixpoint persona_loop (collector : PropertyPreferenceCollector)
    (responses : list string) : PropertyPreferenceCollector :=
  match responses with
  | [] => collector
  | response :: rest =>
      let collector := outcome_self (process_response response collector) in
      if is_complete collector then collector else persona_loop collector rest
  end.

(** The collector of [run_persona_demo] when its loop is left; the demo
    resets the collector first. *)
Definition run_persona_demo (collector : PropertyPreferenceCollector)
    (responses : list string) : PropertyPreferenceCollector :=
  persona_loop (reset collector) responses.






End Demo.

(* ===================================================================== *)
(** ** Properties of the string primitives *)
(* ===================================================================== *)

Module PyStrFacts.
Import PyStr.

Lemma prefix_split (needle hay : string) :
  String.prefix needle hay = true <-> exists after, hay = needle ++ after.
Proof.
  revert hay; induction needle as [|c needle IH]; intros [|d hay]; simpl.
  - split; [intros _; now exists "" | reflexivity].
  - split; [intros _; now exists (String d hay) | reflexivity].
  - split; [discriminate | intros [after H]; discriminate].
  - destruct (Ascii.ascii_dec c d) as [->|Hcd].
    + rewrite IH. split; intros [after H]; exists after.
      * now rewrite H.
      * now injection H.
    + split; [discriminate|].
      intros [after H]. injection H as Hd _. now subst.
Qed.

(** [needle in hay] decides occurrence as a contiguous block. *)
Lemma contains_Substring (needle hay : string) :
  contains needle hay = true <-> Substring needle hay.
Proof.
  induction hay as [|c hay IH]; cbn [contains].
  - destruct (String.prefix needle "") eqn:Hp.
    + apply prefix_split in Hp as [after Hp].
      split; [intros _; now exists "", after | reflexivity].
    + split; [discriminate|].
      intros [[|b before] [after H]]; [|discriminate].
      simpl in H.
      assert (String.prefix needle "" = true) as Hq
          by (apply prefix_split; now exists after).
      congruence.
  - destruct (String.prefix needle (String c hay)) eqn:Hp.
    + apply prefix_split in Hp as [after Hp].
      split; [intros _; now exists "", after | reflexivity].
    + rewrite IH. split.
      * intros [before [after H]]. exists (String c before), after.
        simpl. now rewrite H.
      * intros [[|b before] [after H]].
        -- simpl in H.
           assert (String.prefix needle (String c hay) = true) as Hq
               by (apply prefix_split; now exists after).
           congruence.
        -- injection H as _ H. now exists before, after.
Qed.

Lemma contains_false_iff (needle hay : string) :
  contains needle hay = false <-> ~ Substring needle hay.
Proof.
  rewrite <- contains_Substring.
  destruct (contains needle hay); split; intros H; congruence.
Qed.

Lemma truthy_nonempty (s : string) : truthy s = true <-> s <> "".
Proof. destruct s; simpl; split; congruence. Qed.

End PyStrFacts.

(* ===================================================================== *)
(** ** Properties of the preference dialog *)
(* ===================================================================== *)

Module SearchFacts.
Import PyStr PyStrFacts Search.

Lemma state_eqb_eq (a b : ConversationState) :
  state_eqb a b = true <-> a = b.
Proof. destruct a, b; simpl; split; congruence. Qed.

Lemma field_eqb_eq (a b : Field) : field_eqb a b = true <-> a = b.
Proof. destruct a, b; simpl; split; congruence. Qed.

Lemma getattr_setattr_same (f : Field) (v : string) (p : BuyerPreferences) :
  getattr f (setattr f v p) = v.
Proof. destruct f; reflexivity. Qed.

Lemma getattr_setattr_other (f g : Field) (v : string) (p : BuyerPreferences) :
  f <> g -> getattr g (setattr f v p) = getattr g p.
Proof. destruct f, g; intros H; try reflexivity; now elim H. Qed.

(** What one call does in the confirmation state, by the outcome of its
    test. *)
Lemma confirmation_step (self : PropertyPreferenceCollector)
    (user_input : string) :
  state self = CONFIRMATION ->
  process_response user_input self =
    if affirmative user_input then
      ("Perfect! I'll now generate your property search query.",
       mkCollector (preferences self) COMPLETE
         (push (push (conversation_history self) ("User: " ++ user_input))
            "Assistant: Perfect! I'll now generate your property search query."),
       [SetState COMPLETE])
    else
      ("Thanks for the clarification. I'll now generate your property search query.",
       mkCollector (setattr f_additional_info user_input (preferences self))
         COMPLETE
         (push (push (conversation_history self) ("User: " ++ user_input))
            "Assistant: Thanks for the clarification. I'll now generate your property search query."),
       [SetPreference f_additional_info user_input; SetState COMPLETE]).
Proof.
  intros Hst. unfold process_response, bind, get_state, history_append,
    affirmative.
  cbn. rewrite Hst.
  destruct (contains "yes" (lower user_input)
            || contains "correct" (lower user_input)); reflexivity.
Qed.

(** What one call does in the complete state. *)
Lemma complete_step (self : PropertyPreferenceCollector)
    (user_input : string) :
  state self = COMPLETE ->
  process_response user_input self =
    ("I'm not sure how to respond to that. Could you try again?",
     mkCollector (preferences self) COMPLETE
       (push (push (conversation_history self) ("User: " ++ user_input))
          "Assistant: I'm not sure how to respond to that. Could you try again?"),
     []).
Proof.
  intros Hst. unfold process_response, bind, get_state, history_append.
  cbn. now rewrite Hst.
Qed.

(** Answers can be fed in two batches. *)
Lemma converse_app (self : PropertyPreferenceCollector)
    (first rest : list string) :
  converse self (first ++ rest)%list =
    (fst (converse (fst (converse self first)) rest),
     (snd (converse self first)
      ++ snd (converse (fst (converse self first)) rest))%list).
Proof.
  revert self. induction first as [|user_input first IH]; intros self.
  - cbn. now destruct (converse self rest).
  - cbn [converse app]. rewrite IH.
    destruct (converse (outcome_self (process_response user_input self)) first)
      as [middle trace].
    cbn. now rewrite app_assoc.
Qed.

(** The twelve question states: where they lead and what they assign. *)
Lemma twelve_questions (a1 a2 a3 a4 a5 a6 a7 a8 a9 a10 a11 a12 : string) :
  let run :=
    converse new_collector [a1; a2; a3; a4; a5; a6; a7; a8; a9; a10; a11; a12] in
  state (fst run) = CONFIRMATION /\
  preferences (fst run)
  = mkBuyerPreferences a1 a2 a3 a4 a5 a6 a7 "" a8 "" a9 a10 a11 "" "" a12 "" /\
  snd run
  = [ (GREETING, SetPreference f_property_type a1);
      (GREETING, SetState BUDGET);
      (BUDGET, SetPreference f_budget_range a2);
      (BUDGET, SetState BEDROOMS);
      (BEDROOMS, SetPreference f_bedrooms a3);
      (BEDROOMS, SetState BATHROOMS);
      (BATHROOMS, SetPreference f_bathrooms a4);
      (BATHROOMS, SetState OUTDOOR_SPACE);
      (OUTDOOR_SPACE, SetPreference f_outdoor_space a5);
      (OUTDOOR_SPACE, SetState AREAS);
      (AREAS, SetPreference f_preferred_areas a6);
      (AREAS, SetState COMMUTE);
      (COMMUTE, SetPreference f_commute_location a7);
      (COMMUTE, SetState TRANSPORT);
      (TRANSPORT, SetPreference f_transport_preference a8);
      (TRANSPORT, SetState AMENITIES);
      (AMENITIES, SetPreference f_amenities a9);
      (AMENITIES, SetState COMMUNITY);
      (COMMUNITY, SetPreference f_community_type a10);
      (COMMUNITY, SetState FEATURES);
      (FEATURES, SetPreference f_must_have_features a11);
      (FEATURES, SetState PRIORITIES);
      (PRIORITIES, SetPreference f_top_priorities a12);
      (PRIORITIES, SetState CONFIRMATION) ].
Proof. cbv zeta. repeat split; vm_compute; reflexivity. Qed.

(** A single answer in the confirmation state. *)
Lemma confirmation_run (self : PropertyPreferenceCollector)
    (user_input : string) :
  state self = CONFIRMATION ->
  let run := converse self [user_input] in
  state (fst run) = COMPLETE /\
  preferences (fst run)
  = (if affirmative user_input then preferences self
     else setattr f_additional_info user_input (preferences self)) /\
  snd run
  = (if affirmative user_input then [(CONFIRMATION, SetState COMPLETE)]
     else [(CONFIRMATION, SetPreference f_additional_info user_input);
           (CONFIRMATION, SetState COMPLETE)]).
Proof.
  intros Hst. cbn [converse].
  rewrite (confirmation_step self user_input Hst), Hst.
  destruct (affirmative user_input); cbn; repeat split.
Qed.

(** Thirteen answers are twelve questions and a confirmation. *)
Lemma thirteen_run (a1 a2 a3 a4 a5 a6 a7 a8 a9 a10 a11 a12 a13 : string) :
  converse new_collector [a1; a2; a3; a4; a5; a6; a7; a8; a9; a10; a11; a12; a13]
  = (fst (converse
            (fst (converse new_collector
                    [a1; a2; a3; a4; a5; a6; a7; a8; a9; a10; a11; a12]))
            [a13]),
     (snd (converse new_collector
             [a1; a2; a3; a4; a5; a6; a7; a8; a9; a10; a11; a12])
      ++ snd (converse
                (fst (converse new_collector
                        [a1; a2; a3; a4; a5; a6; a7; a8; a9; a10; a11; a12]))
                [a13]))%list).
Proof.
  exact (converse_app new_collector
           [a1; a2; a3; a4; a5; a6; a7; a8; a9; a10; a11; a12] [a13]).
Qed.

(** The outcome of a whole conversation of thirteen answers. *)
Lemma thirteen_run_result (a1 a2 a3 a4 a5 a6 a7 a8 a9 a10 a11 a12 a13 : string) :
  exists final trace12 last,
    converse new_collector
      [a1; a2; a3; a4; a5; a6; a7; a8; a9; a10; a11; a12; a13]
    = (final, (trace12 ++ last)%list) /\
    state final = COMPLETE /\
    preferences final
    = (if affirmative a13
       then mkBuyerPreferences a1 a2 a3 a4 a5 a6 a7 "" a8 "" a9 a10 a11 "" "" a12 ""
       else mkBuyerPreferences a1 a2 a3 a4 a5 a6 a7 "" a8 "" a9 a10 a11 "" "" a12 a13) /\
    trace12 = snd (converse new_collector
                     [a1; a2; a3; a4; a5; a6; a7; a8; a9; a10; a11; a12]) /\
    last = (if affirmative a13 then [(CONFIRMATION, SetState COMPLETE)]
            else [(CONFIRMATION, SetPreference f_additional_info a13);
                  (CONFIRMATION, SetState COMPLETE)]).
Proof.
  destruct (twelve_questions a1 a2 a3 a4 a5 a6 a7 a8 a9 a10 a11 a12)
    as (Hst & Hprefs & _).
  destruct (confirmation_run _ a13 Hst) as (Hst' & Hprefs' & Htrace').
  eexists _, _, _. split; [apply thirteen_run|].
  split; [exact Hst'|]. split.
  - rewrite Hprefs', Hprefs. now destruct (affirmative a13).
  - split; [reflexivity | exact Htrace'].
Qed.

End SearchFacts.

Import PyStr.
Import Search.

Lemma list_of_thirteen (answers : list string) :
  length answers = 13 ->
  exists a1 a2 a3 a4 a5 a6 a7 a8 a9 a10 a11 a12 a13,
    answers = [a1; a2; a3; a4; a5; a6; a7; a8; a9; a10; a11; a12; a13].
Proof.
  intros H.
  do 13 (destruct answers as [|? answers]; [discriminate H|]).
  destruct answers; [|discriminate H].
  repeat eexists.
Qed.

(** C1, as amended.  Thirteen answers given from the greeting state end the
    conversation in the complete state; the twelve fields of the question
    states hold the first twelve answers in order; the thirteenth answer is
    kept in [additional_info] when it is not affirmative, and otherwise
    [additional_info] stays empty. *)
Theorem thirteen_answers_fill_the_record (answers : list string) :
  length answers = 13 ->
  let final := fst (converse new_collector answers) in
  state final = COMPLETE /\
  read_fields dialog_fields (preferences final) = firstn 12 answers /\
  additional_info (preferences final) =
    (if affirmative (nth 12 answers "") then "" else nth 12 answers "").
Proof.
  intros H.
  apply list_of_thirteen in H
    as (a1 & a2 & a3 & a4 & a5 & a6 & a7 & a8 & a9 & a10 & a11 & a12 & a13 & ->).
  destruct (SearchFacts.thirteen_run_result a1 a2 a3 a4 a5 a6 a7 a8 a9 a10 a11 a12 a13)
    as (final & trace12 & last & Hrun & Hst & Hprefs & _ & _).
  cbv zeta. rewrite Hrun. cbn [fst]. rewrite Hprefs.
  split; [exact Hst|].
  cbn [nth firstn]. destruct (affirmative a13); split; reflexivity.
Qed.

Lemma thirteen_answers_fill_the_record_witness :
  length Demo.young_professionals_remark = 13 /\
  state (fst (converse new_collector Demo.young_professionals_remark)) = COMPLETE /\
  read_fields dialog_fields
    (preferences (fst (converse new_collector Demo.young_professionals_remark)))
  = firstn 12 Demo.young_professionals_remark /\
  additional_info
    (preferences (fst (converse new_collector Demo.young_professionals_remark)))
  = "A lift would help too".
Proof.
  split; [reflexivity|].
  exact (thirteen_answers_fill_the_record Demo.young_professionals_remark eq_refl).
Defined.

(** C1, as stated, fails: after the thirteen scripted answers of the demo
    persona, whose last answer is a confirmation, the thirteen targeted
    fields do not equal the thirteen answers. *)
Lemma thirteen_answers_counterexample :
  ~ (read_fields targeted_fields (preferences Demo.finished)
       = Demo.young_professionals
     /\ state Demo.finished = COMPLETE).
Proof.
  intros [H _]. vm_compute in H. discriminate H.
Qed.

(** C2.  In the confirmation state one call always ends in the complete
    state with a single assignment to the state.  When the lowered input
    contains "yes" or "correct" no preference is assigned; otherwise the
    input is stored unchanged in [additional_info] and no other field
    changes. *)
Theorem confirmation_completes_in_one_transition
    (self : PropertyPreferenceCollector) (user_input : string) :
  state self = CONFIRMATION ->
  let o := process_response user_input self in
  state (outcome_self o) = COMPLETE /\
  state_writes (outcome_log o) = [COMPLETE] /\
  (contains "yes" (lower user_input) = true
   \/ contains "correct" (lower user_input) = true ->
   preferences (outcome_self o) = preferences self /\
   outcome_log o = [SetState COMPLETE]) /\
  (contains "yes" (lower user_input) = false
   /\ contains "correct" (lower user_input) = false ->
   additional_info (preferences (outcome_self o)) = user_input /\
   preferences (outcome_self o)
   = setattr f_additional_info user_input (preferences self) /\
   outcome_log o = [SetPreference f_additional_info user_input; SetState COMPLETE]).
Proof.
  intros Hst o. subst o.
  rewrite (SearchFacts.confirmation_step self user_input Hst).
  unfold affirmative.
  destruct (contains "yes" (lower user_input)) eqn:Hyes;
    destruct (contains "correct" (lower user_input)) eqn:Hcorrect;
    cbn; (split; [reflexivity|]); (split; [reflexivity|]); split; intros H;
    solve [ repeat split; reflexivity
          | destruct H as [H | H]; discriminate H
          | destruct H as [H1 H2]; discriminate ].
Qed.

Lemma confirmation_completes_in_one_transition_witness :
  state Demo.awaiting_confirmation = CONFIRMATION /\
  let o := process_response "A lift would help too" Demo.awaiting_confirmation in
  state (outcome_self o) = COMPLETE /\
  state_writes (outcome_log o) = [COMPLETE] /\
  additional_info (preferences (outcome_self o)) = "A lift would help too".
Proof.
  split; [reflexivity|].
  pose proof (confirmation_completes_in_one_transition
                Demo.awaiting_confirmation "A lift would help too" eq_refl)
    as (H1 & H2 & _ & H4).
  split; [exact H1|]. split; [exact H2|].
  exact (proj1 (H4 (conj eq_refl eq_refl))).
Defined.

(** C5.  [generate_semantic_query] raises its invalid-state error exactly
    when the conversation state is not complete, whatever the chat model
    does. *)
Theorem generate_semantic_query_state_error
    (chain : Chain) (self : PropertyPreferenceCollector) :
  generate_semantic_query chain self
  = Raise (ValueError "Cannot generate query - preference collection not complete")
  <-> state self <> COMPLETE.
Proof.
  unfold generate_semantic_query.
  destruct (state_eqb (state self) COMPLETE) eqn:Heq; cbn.
  - apply SearchFacts.state_eqb_eq in Heq. split.
    + destruct (chain _); discriminate.
    + intros H. now elim H.
  - split; [|reflexivity]. intros _ H.
    apply SearchFacts.state_eqb_eq in H. congruence.
Qed.

(** C8.  In the complete state every further input gets the same fixed
    reply, assigns nothing, leaves the preference record as it was and
    leaves the state complete; so it is after any number of inputs. *)
Theorem complete_state_is_terminal
    (self : PropertyPreferenceCollector) (inputs : list string) :
  state self = COMPLETE ->
  (forall user_input,
     let o := process_response user_input self in
     outcome_response o
     = "I'm not sure how to respond to that. Could you try again?" /\
     preferences (outcome_self o) = preferences self /\
     state (outcome_self o) = COMPLETE /\
     outcome_log o = []) /\
  preferences (fst (converse self inputs)) = preferences self /\
  state (fst (converse self inputs)) = COMPLETE /\
  snd (converse self inputs) = [].
Proof.
  intros Hst. split.
  - intros user_input o. subst o.
    rewrite (SearchFacts.complete_step self user_input Hst).
    repeat split.
  - revert self Hst.
    induction inputs as [|user_input inputs IH]; intros self Hst.
    + cbn. auto.
    + cbn [converse].
      rewrite (SearchFacts.complete_step self user_input Hst).
      cbn [outcome_self outcome_log fst snd map].
      set (next := mkCollector _ _ _).
      specialize (IH next eq_refl).
      destruct (converse next inputs) as [final trace].
      cbn in *. tauto.
Qed.

Lemma complete_state_is_terminal_witness :
  state Demo.finished = COMPLETE /\
  preferences (fst (converse Demo.finished ["hello"; "yes"; "a garden please"]))
  = preferences Demo.finished /\
  state (fst (converse Demo.finished ["hello"; "yes"; "a garden please"]))
  = COMPLETE.
Proof.
  split; [reflexivity|].
  pose proof (complete_state_is_terminal Demo.finished
                ["hello"; "yes"; "a garden please"] eq_refl)
    as (_ & H1 & H2 & _).
  split; [exact H1 | exact H2].
Defined.

(** C9, as amended.  Every field starts empty.  Over a conversation of
    thirteen answers from the greeting state, each of the twelve fields of
    the question states is assigned exactly once, in its own state and with
    that state's answer; [additional_info] is assigned once, in the
    confirmation state, when the last answer is not affirmative and never
    otherwise; [commute_time], [transport_priority], [deal_breakers] and
    [special_requirements] are never assigned and stay empty. *)
Theorem fields_written_once_by_their_state (answers : list string) :
  length answers = 13 ->
  let run := converse new_collector answers in
  (forall f, getattr f (preferences new_collector) = "") /\
  map (fun f => writes_of f (snd run)) dialog_fields
  = map (fun sa => [sa]) (combine dialog_states (firstn 12 answers)) /\
  writes_of f_additional_info (snd run)
  = (if affirmative (nth 12 answers "") then []
     else [(CONFIRMATION, nth 12 answers "")]) /\
  (forall f, In f unasked_fields ->
     writes_of f (snd run) = [] /\ getattr f (preferences (fst run)) = "").
Proof.
  intros H.
  apply list_of_thirteen in H
    as (a1 & a2 & a3 & a4 & a5 & a6 & a7 & a8 & a9 & a10 & a11 & a12 & a13 & ->).
  destruct (SearchFacts.thirteen_run_result a1 a2 a3 a4 a5 a6 a7 a8 a9 a10 a11 a12 a13)
    as (final & trace12 & last & Hrun & Hst & Hprefs & Htrace & Hlast).
  destruct (SearchFacts.twelve_questions a1 a2 a3 a4 a5 a6 a7 a8 a9 a10 a11 a12)
    as (_ & _ & Hexplicit).
  rewrite Hexplicit in Htrace.
  cbv zeta. rewrite Hrun. cbn [fst snd]. rewrite Hprefs, Htrace, Hlast.
  cbn [nth firstn].
  split; [intros f; now destruct f|].
  destruct (affirmative a13);
    (split; [reflexivity|]); (split; [reflexivity|]);
    intros f [<- | [<- | [<- | [<- | []]]]]; split; reflexivity.
Qed.

Lemma fields_written_once_by_their_state_witness :
  length Demo.young_professionals = 13 /\
  writes_of f_bedrooms (snd (converse new_collector Demo.young_professionals))
  = [(BEDROOMS, "1 bedroom, maybe 2 if budget allows")] /\
  writes_of f_additional_info
    (snd (converse new_collector Demo.young_professionals)) = [] /\
  writes_of f_commute_time
    (snd (converse new_collector Demo.young_professionals)) = [].
Proof.
  split; [reflexivity|].
  pose proof (fields_written_once_by_their_state Demo.young_professionals eq_refl)
    as (_ & H1 & H2 & H3).
  split; [|split].
  - exact (f_equal (fun l => nth 2 l []) H1).
  - exact H2.
  - exact (proj1 (H3 f_commute_time (or_introl eq_refl))).
Defined.

(** C9, as stated, fails: in the scripted conversation of the demo persona
    it is not the case that every field other than the free-text one is
    assigned exactly once. *)
Lemma fields_written_once_counterexample :
  ~ (forall f, f <> f_additional_info ->
       length (writes_of f (snd (converse new_collector Demo.young_professionals)))
       = 1).
Proof.
  intros H. specialize (H f_commute_time ltac:(discriminate)).
  vm_compute in H. discriminate H.
Qed.

(** C10.  The test of the confirmation state is containment in the lowered
    input: whenever "yes" or "correct" occurs anywhere in it as a block of
    characters, the call completes the conversation and assigns no
    preference; so [additional_info] keeps its value. *)
Theorem confirmation_affirmative_is_substring
    (self : PropertyPreferenceCollector) (user_input : string) :
  state self = CONFIRMATION ->
  Substring "yes" (lower user_input) \/ Substring "correct" (lower user_input) ->
  let o := process_response user_input self in
  state (outcome_self o) = COMPLETE /\
  preferences (outcome_self o) = preferences self /\
  additional_info (preferences (outcome_self o))
  = additional_info (preferences self) /\
  outcome_log o = [SetState COMPLETE].
Proof.
  intros Hst Hsub o. subst o.
  rewrite (SearchFacts.confirmation_step self user_input Hst).
  assert (affirmative user_input = true) as ->.
  { unfold affirmative. apply orb_true_iff.
    destruct Hsub as [H | H]; [left | right];
      now apply PyStrFacts.contains_Substring. }
  repeat split.
Qed.

Lemma confirmation_affirmative_is_substring_witness :
  state Demo.awaiting_confirmation = CONFIRMATION /\
  Substring "correct" (lower "No, that's not correct") /\
  Substring "correct" (lower "Incorrect") /\
  (let o := process_response "No, that's not correct" Demo.awaiting_confirmation in
   state (outcome_self o) = COMPLETE /\
   additional_info (preferences (outcome_self o)) = "") /\
  (let o := process_response "Incorrect" Demo.awaiting_confirmation in
   state (outcome_self o) = COMPLETE /\
   additional_info (preferences (outcome_self o)) = "").
Proof.
  assert (Substring "correct" (lower "No, that's not correct")) as H1
      by (exists "no, that's not ", ""; reflexivity).
  assert (Substring "correct" (lower "Incorrect")) as H2
      by (exists "in", ""; reflexivity).
  split; [reflexivity|]. split; [exact H1|]. split; [exact H2|].
  split.
  - pose proof (confirmation_affirmative_is_substring
                  Demo.awaiting_confirmation "No, that's not correct"
                  eq_refl (or_intror H1)) as (Ha & _ & Hb & _).
    split; [exact Ha | exact Hb].
  - pose proof (confirmation_affirmative_is_substring
                  Demo.awaiting_confirmation "Incorrect"
                  eq_refl (or_intror H2)) as (Ha & _ & Hb & _).
    split; [exact Ha | exact Hb].
Defined.

(* ===================================================================== *)
(** ** Properties of the personalizer *)
(* ===================================================================== *)

Module PersonalizeFacts.
Import PyStr PyStrFacts Search Personalize.

Lemma existsb_filter {A : Type} (f g : A -> bool) (l : list A) :
  existsb f (filter g l) = existsb (fun x => g x && f x) l.
Proof.
  induction l as [|x l IH]; [reflexivity|].
  cbn. destruct (g x); cbn; now rewrite IH.
Qed.

Lemma found_in_mentions (content word : string) :
  found_in content word = true <-> mentions content word.
Proof. apply contains_Substring. Qed.

Lemma long_word_length (word : string) :
  long_word word = true <-> 3 < String.length word.
Proof. apply Nat.ltb_lt. Qed.

Lemma vocabulary_mentions (content : string) (vocabulary : list string) :
  existsb (found_in content) vocabulary = true
  <-> exists keyword, In keyword vocabulary /\ mentions content keyword.
Proof.
  rewrite existsb_exists.
  split; intros (k & Hin & H); exists k; split; auto;
    now apply found_in_mentions.
Qed.

Lemma long_words_mention (content : string) (words : list string) :
  existsb (fun w => long_word w && found_in content w) words = true
  <-> exists word, In word words /\ 3 < String.length word /\ mentions content word.
Proof.
  rewrite existsb_exists.
  split.
  - intros (w & Hin & H). apply andb_true_iff in H as [Hl Hf].
    exists w. repeat split; auto.
    + now apply long_word_length.
    + now apply found_in_mentions.
  - intros (w & Hin & Hl & Hm). exists w. split; auto.
    apply andb_true_iff. split.
    + now apply long_word_length.
    + now apply found_in_mentions.
Qed.

(** A test that reflects its specification decides between the label and
    nothing. *)
Lemma implements_by_test (test : string -> BuyerPreferences -> bool)
    (spec : RuleSpec) :
  (forall c p, test c p = true <-> fires spec c p) ->
  implements (fun c p => if test c p then Some (label spec c p) else None) spec.
Proof.
  intros Htest c p. specialize (Htest c p).
  destruct (test c p); split; intros H; try reflexivity.
  - elim H. now apply Htest.
  - apply Htest in H. discriminate H.
Qed.

Lemma rule_property_type_ok : implements rule_property_type property_type_spec.
Proof.
  apply (implements_by_test
           (fun c p => truthy (property_type p)
                       && found_in c (lower (property_type p)))).
  intros c p. cbn. unfold stated.
  now rewrite andb_true_iff, truthy_nonempty, found_in_mentions.
Qed.

Lemma rule_bedrooms_ok : implements rule_bedrooms bedrooms_spec.
Proof.
  apply (implements_by_test
           (fun c p => truthy (bedrooms p)
                       && (found_in c "bedroom" || found_in c "bed"))).
  intros c p. cbn. unfold stated.
  now rewrite andb_true_iff, orb_true_iff, truthy_nonempty, !found_in_mentions.
Qed.

Lemma rule_outdoor_space_ok : implements rule_outdoor_space outdoor_space_spec.
Proof.
  apply (implements_by_test
           (fun c p => truthy (outdoor_space p)
                       && negb (String.eqb (lower (outdoor_space p)) "no")
                       && existsb (found_in c) outdoor_vocabulary)).
  intros c p. cbn [fires outdoor_space_spec]. unfold stated.
  rewrite !andb_true_iff, truthy_nonempty, vocabulary_mentions, negb_true_iff.
  destruct (String.eqb_spec (lower (outdoor_space p)) "no") as [He | He];
    intuition congruence.
Qed.

Lemma rule_preferred_areas_ok :
  implements rule_preferred_areas preferred_areas_spec.
Proof.
  apply (implements_by_test
           (fun c p => truthy (preferred_areas p)
                       && existsb (fun w => long_word w && found_in c w)
                            (split (lower (preferred_areas p))))).
  intros c p. cbn [fires preferred_areas_spec]. unfold stated.
  now rewrite andb_true_iff, truthy_nonempty, long_words_mention.
Qed.

Lemma rule_transport_ok : implements rule_transport transport_spec.
Proof.
  apply (implements_by_test
           (fun c p => truthy (transport_preference p)
                       && existsb (found_in c) transport_vocabulary)).
  intros c p. cbn [fires transport_spec]. unfold stated.
  now rewrite andb_true_iff, truthy_nonempty, vocabulary_mentions.
Qed.

Lemma matched_amenity_words_nonempty (c : string) (p : BuyerPreferences) :
  negb (Nat.eqb (length (matched_amenity_words c p)) 0) = true
  <-> exists word, In word (split (lower (amenities p)))
                   /\ 3 < String.length word /\ mentions c word.
Proof.
  rewrite <- long_words_mention. unfold matched_amenity_words.
  induction (split (lower (amenities p))) as [|w ws IH]; cbn [filter existsb].
  - cbn. split; discriminate.
  - destruct (long_word w && found_in c w); cbn [length orb];
      [cbn; split; reflexivity | exact IH].
Qed.

Lemma rule_amenities_ok : implements rule_amenities amenities_spec.
Proof.
  apply (implements_by_test
           (fun c p => truthy (amenities p)
                       && negb (Nat.eqb (length (matched_amenity_words c p)) 0))).
  intros c p. cbn [fires amenities_spec]. unfold stated.
  now rewrite andb_true_iff, truthy_nonempty, matched_amenity_words_nonempty.
Qed.


(** Names the value bound by the outermost [let] of the left-hand side. *)
Ltac name_let h :=
  lazymatch goal with
  | |- (let x := ?v in @?body x) = ?rhs =>
      pose (h := v); change (body h = rhs); cbv beta
  end.

Lemma highlights_run_the_rules (c : string) (p : BuyerPreferences) :
  _identify_preference_highlights c p = spec_highlights c p.
Proof.
  cbv beta delta [_identify_preference_highlights].
  name_let h0. name_let content_lower.
  name_let h1.
  assert (h1 = h0 ++ label_list (rule_property_type c p))%list as E1.
  { subst h1. unfold rule_property_type, found_in. fold content_lower.
    destruct (truthy (property_type p)
              && contains (lower (property_type p)) content_lower);
      [reflexivity | now rewrite app_nil_r]. }
  clearbody h1. name_let h2.
  assert (h2 = h1 ++ label_list (rule_bedrooms c p))%list as E2.
  { subst h2. unfold rule_bedrooms, any_in, found_in. fold content_lower.
    cbn [existsb]. rewrite orb_false_r.
    destruct (truthy (bedrooms p));
      destruct (contains "bedroom" content_lower || contains "bed" content_lower);
      cbn [andb label_list]; rewrite ?app_nil_r; reflexivity. }
  clearbody h2. name_let h3.
  assert (h3 = h2 ++ label_list (rule_outdoor_space c p))%list as E3.
  { subst h3. unfold rule_outdoor_space, any_in, outdoor_vocabulary, found_in.
    fold content_lower.
    destruct (truthy (outdoor_space p)
              && negb (String.eqb (lower (outdoor_space p)) "no"));
      cbn [andb label_list]; [|now rewrite app_nil_r].
    destruct (existsb _ _); rewrite ?app_nil_r; reflexivity. }
  clearbody h3. name_let h4.
  assert (h4 = h3 ++ label_list (rule_preferred_areas c p))%list as E4.
  { subst h4. unfold rule_preferred_areas, found_in, long_word.
    fold content_lower. rewrite existsb_filter.
    destruct (truthy (preferred_areas p));
      cbn [andb label_list]; [|now rewrite app_nil_r].
    destruct (existsb _ _); rewrite ?app_nil_r; reflexivity. }
  clearbody h4. name_let h5.
  assert (h5 = h4 ++ label_list (rule_transport c p))%list as E5.
  { subst h5. unfold rule_transport, any_in, transport_vocabulary, found_in.
    fold content_lower.
    destruct (truthy (transport_preference p));
      cbn [andb label_list]; [|now rewrite app_nil_r].
    destruct (existsb _ _); rewrite ?app_nil_r; reflexivity. }
  clearbody h5. name_let h6.
  assert (h6 = h5 ++ label_list (rule_amenities c p))%list as E6.
  { subst h6. unfold rule_amenities, matched_amenity_words, found_in, long_word.
    fold content_lower.
    rewrite (filter_ext
               (fun w => contains w content_lower && (3 <? String.length w)%nat)
               (fun w => (3 <? String.length w)%nat && contains w content_lower))
      by (intros w; apply andb_comm).
    destruct (truthy (amenities p));
      cbn [andb label_list]; [|now rewrite app_nil_r].
    destruct (filter _ _); cbn [length Nat.eqb negb label_list];
      rewrite ?app_nil_r; reflexivity. }
  rewrite E6, E5, E4, E3, E2, E1. subst h0.
  unfold spec_highlights, highlight_rules. cbn [flat_map].
  now rewrite app_nil_r, <- !app_assoc.
Qed.

Lemma personalize_one_listing {Score : Type} (chain : Chain)
    (p : BuyerPreferences)
    (acc : list (PersonalizedListing Score) * list string)
    (r : SearchResult Score) :
  fst (personalize_one chain p (_extract_preference_context p) acc r)
  = push (fst acc) (listing_for chain p r).
Proof.
  destruct acc as [listings printed].
  unfold personalize_one, listing_for.
  now destruct (_generate_personalized_description _ _ _ _ _).
Qed.

Lemma personalize_loop {Score : Type} (chain : Chain) (p : BuyerPreferences)
    (results : list (SearchResult Score))
    (acc : list (PersonalizedListing Score) * list string) :
  fst (fold_left (personalize_one chain p (_extract_preference_context p))
         results acc)
  = (fst acc ++ map (listing_for chain p) results)%list.
Proof.
  revert acc. induction results as [|r results IH]; intros acc; cbn [fold_left map].
  - now rewrite app_nil_r.
  - rewrite IH, personalize_one_listing. unfold push.
    now rewrite <- app_assoc.
Qed.

(** The output lists one listing per search result, in the same order. *)
Lemma personalize_listings_map {Score : Type} (chain : Chain)
    (results : list (SearchResult Score)) (p : BuyerPreferences) :
  fst (personalize_listings chain results p) = map (listing_for chain p) results.
Proof. unfold personalize_listings. now rewrite personalize_loop. Qed.

End PersonalizeFacts.

(* ===================================================================== *)
(** ** Properties of the vector store *)
(* ===================================================================== *)

Module StoreFacts.
Import Store.

Lemma load_existing_only_prints {Score : Type} (w : World Score)
    (self : PropertyVectorStore) :
  exists line,
    snd (fst (load_existing_vectorstore w self)) = print line w.
Proof.
  unfold load_existing_vectorstore.
  destruct (chroma_fault w OpenCollection);
    [|destruct (chroma_fault w CountCollection);
      [|destruct (0 <? length (collection w))%nat]];
    cbn [fst snd]; eexists; reflexivity.
Qed.

(** A store whose handle is unset refuses every search. *)
Lemma search_without_handle {Score : Type} (w : World Score)
    (self : PropertyVectorStore) (query : string) (k : Z)
    (filter_dict : option Dict) :
  vectorstore self = None ->
  semantic_search w self query k filter_dict
  = Raise (ValueError
             "Vector store not initialized. Call setup_vectorstore() first.").
Proof. intros H. unfold semantic_search. now rewrite H. Qed.

End StoreFacts.

Import Personalize.


(** The labels found for the sample listing and the demo persona. *)
Example highlights_of_the_sample_listing :
  _identify_preference_highlights
    "A bright 2 bedroom flat near the tube with a balcony"
    (preferences Demo.finished)
  = [ "Bedroom Requirements: 1 bedroom, maybe 2 if budget allows";
      "Outdoor Space Available";
      "Good Transport Links" ].
Proof. vm_compute. reflexivity. Qed.

(** C4.  [personalize_listings] returns one listing per search result, in
    order; the listing of a result whose rewrite call fails is the fallback:
    its description is the original content and its highlight list is
    empty. *)
Theorem rewrite_failure_falls_back {Score : Type} (chain : Chain)
    (search_results : list (SearchResult Score)) (p : BuyerPreferences) :
  length (fst (personalize_listings chain search_results p))
  = length search_results /\
  forall i result failure,
    nth_error search_results i = Some result ->
    chain (rewrite_request p result) = inr failure ->
    exists listing,
      nth_error (fst (personalize_listings chain search_results p)) i
      = Some listing /\
      listing = fallback_listing result /\
      original_content listing = content result /\
      personalized_description listing = content result /\
      preference_highlights listing = [].
Proof.
  rewrite PersonalizeFacts.personalize_listings_map. split.
  - apply length_map.
  - intros i result failure Hnth Hfail.
    exists (fallback_listing result). split; [|repeat split].
    rewrite (map_nth_error _ _ _ Hnth). f_equal.
    unfold listing_for, _generate_personalized_description.
    unfold rewrite_request in Hfail. now rewrite Hfail.
Qed.


Lemma rewrite_failure_falls_back_witness :
  nth_error [sample_result; sample_result] 1 = Some sample_result /\
  unavailable (rewrite_request (preferences Demo.finished) sample_result)
  = inr "Connection error." /\
  length (fst (personalize_listings unavailable [sample_result; sample_result]
                 (preferences Demo.finished))) = 2 /\
  exists listing,
    nth_error (fst (personalize_listings unavailable
                      [sample_result; sample_result]
                      (preferences Demo.finished))) 1 = Some listing /\
    personalized_description listing
    = "A bright 2 bedroom flat near the tube with a balcony" /\
    preference_highlights listing = [].
Proof.
  split; [reflexivity|]. split; [reflexivity|].
  pose proof (rewrite_failure_falls_back unavailable
                [sample_result; sample_result] (preferences Demo.finished))
    as [Hlen Hfall].
  split; [exact Hlen|].
  destruct (Hfall 1 sample_result "Connection error." eq_refl eq_refl)
    as (listing & Hnth & _ & _ & Hdesc & Hhigh).
  exists listing. split; [exact Hnth|]. split; [exact Hdesc | exact Hhigh].
Defined.


(* ===================================================================== *)
(** ** Further properties of the dialog *)
(* ===================================================================== *)

Module TextFacts.
Import PyStr.

Lemma append_empty_r (s : string) : s ++ "" = s.
Proof. induction s as [|c s IH]; [reflexivity|]. cbn. now rewrite IH. Qed.

Lemma append_associative (a b c : string) : (a ++ b) ++ c = a ++ b ++ c.
Proof. induction a as [|x a IH]; [reflexivity|]. cbn. now rewrite IH. Qed.

Lemma concat_plain_cons (x : string) (l : list string) :
  String.concat "" (x :: l) = x ++ String.concat "" l.
Proof. destruct l; cbn; [now rewrite append_empty_r | reflexivity]. Qed.

Lemma concat_plain_app (l1 l2 : list string) :
  String.concat "" (l1 ++ l2)%list
  = String.concat "" l1 ++ String.concat "" l2.
Proof.
  induction l1 as [|x l1 IH]; [reflexivity|].
  cbn [app]. rewrite !concat_plain_cons, IH. now rewrite append_associative.
Qed.

(** A member of a list of texts occurs in their concatenation. *)
Lemma concat_plain_In (x : string) (l : list string) :
  In x l -> Substring x (String.concat "" l).
Proof.
  intros H. apply in_split in H as (l1 & l2 & ->).
  exists (String.concat "" l1), (String.concat "" l2).
  now rewrite concat_plain_app, concat_plain_cons.
Qed.

Lemma Substring_app_l (x a b : string) : Substring x a -> Substring x (a ++ b).
Proof.
  intros (u & v & ->). exists u, (v ++ b).
  now rewrite !append_associative.
Qed.

Lemma Substring_app_r (x a b : string) : Substring x b -> Substring x (a ++ b).
Proof.
  intros (u & v & ->). exists (a ++ u), v.
  now rewrite !append_associative.
Qed.

(** *** [strip] *)







End TextFacts.

Module DialogFacts.
Import PyStr PyStrFacts Search SearchFacts TextFacts.

(** One call, in any state: where it leads and what it adds to the
    transcript. *)
Lemma step_state_and_history (self : PropertyPreferenceCollector)
    (user_input : string) :
  let o := process_response user_input self in
  state (outcome_self o) = next_state (state self) /\
  conversation_history (outcome_self o)
  = (conversation_history self
     ++ [("User: " ++ user_input)%string;
         ("Assistant: " ++ outcome_response o)%string])%list.
Proof.
  destruct self as [p st h].
  unfold process_response, bind, get_state, get_preferences, history_append,
    set_preference, set_state, ret, push.
  destruct st; cbn;
    try (destruct (contains "yes" (lower user_input)
                   || contains "correct" (lower user_input)); cbn);
    rewrite <- app_assoc; split; reflexivity.
Qed.

Lemma converse_cons (self : PropertyPreferenceCollector)
    (user_input : string) (rest : list string) :
  fst (converse self (user_input :: rest))
  = fst (converse (outcome_self (process_response user_input self)) rest).
Proof.
  cbn [converse].
  now destruct (converse (outcome_self (process_response user_input self)) rest).
Qed.

Lemma converse_state (self : PropertyPreferenceCollector)
    (answers : list string) :
  state (fst (converse self answers))
  = Nat.iter (length answers) next_state (state self).
Proof.
  revert self. induction answers as [|a answers IH]; intros self.
  - reflexivity.
  - rewrite converse_cons, IH.
    rewrite (proj1 (step_state_and_history self a)).
    cbn [length]. now rewrite Nat.iter_succ_r.
Qed.

Lemma converse_history_length (self : PropertyPreferenceCollector)
    (answers : list string) :
  length (conversation_history (fst (converse self answers)))
  = length (conversation_history self) + 2 * length answers.
Proof.
  revert self. induction answers as [|a answers IH]; intros self.
  - cbn. lia.
  - rewrite converse_cons, IH.
    rewrite (proj2 (step_state_and_history self a)).
    rewrite length_app. cbn [length]. lia.
Qed.

Lemma complete_absorbs (n : nat) : Nat.iter n next_state COMPLETE = COMPLETE.
Proof.
  induction n as [|n IH]; [reflexivity|].
  rewrite Nat.iter_succ. now rewrite IH.
Qed.

Lemma steps_from_greeting (n : nat) :
  state_eqb (Nat.iter n next_state GREETING) COMPLETE = (13 <=? n)%nat.
Proof.
  destruct (Nat.leb_spec 13 n) as [H | H].
  - assert (exists k, n = k + 13) as [k ->] by (exists (n - 13); lia).
    rewrite Nat.iter_add.
    change (Nat.iter 13 next_state GREETING) with COMPLETE.
    now rewrite complete_absorbs.
  - do 13 (destruct n as [|n]; [reflexivity|]). lia.
Qed.

Lemma never_property_type (st : ConversationState) (n : nat) :
  st <> PROPERTY_TYPE -> Nat.iter n next_state st <> PROPERTY_TYPE.
Proof.
  intros H. induction n as [|n IH]; [exact H|].
  rewrite Nat.iter_succ. destruct (Nat.iter n next_state st); cbn; congruence.
Qed.

(** What one call does in the state [PROPERTY_TYPE]. *)
Lemma property_type_step (self : PropertyPreferenceCollector)
    (user_input : string) :
  state self = PROPERTY_TYPE ->
  process_response user_input self =
    ("I'm not sure how to respond to that. Could you try again?",
     mkCollector (preferences self) PROPERTY_TYPE
       (push (push (conversation_history self) ("User: " ++ user_input))
          "Assistant: I'm not sure how to respond to that. Could you try again?"),
     []).
Proof.
  intros Hst. unfold process_response, bind, get_state, history_append.
  cbn. now rewrite Hst.
Qed.

(** A conversation in a state of the final [else] assigns nothing. *)
Lemma idle_run (self : PropertyPreferenceCollector) (inputs : list string) :
  state self = PROPERTY_TYPE \/ state self = COMPLETE ->
  preferences (fst (converse self inputs)) = preferences self /\
  state (fst (converse self inputs)) = state self /\
  snd (converse self inputs) = [].
Proof.
  revert self. induction inputs as [|u inputs IH]; intros self Hst.
  - cbn. auto.
  - cbn [converse].
    assert (exists h, process_response u self
                      = (outcome_response (process_response u self),
                         mkCollector (preferences self) (state self) h, []))
      as [h Hstep].
    { destruct Hst as [Hst | Hst].
      - rewrite (property_type_step self u Hst), Hst. eexists; reflexivity.
      - rewrite (complete_step self u Hst), Hst. eexists; reflexivity. }
    rewrite Hstep. cbn [outcome_self outcome_log fst snd map].
    set (next := mkCollector _ _ _).
    specialize (IH next Hst).
    destruct (converse next inputs) as [final trace].
    cbn in *. tauto.
Qed.

End DialogFacts.

Module SummaryFacts.
Import PyStr PyStrFacts Search SearchFacts TextFacts.

Lemma summary_line_appends (label value summary : string) :
  summary_line label value summary
  = summary ++ (if truthy value then bullet (label, value) else "").
Proof.
  unfold summary_line, bullet. cbn [fst snd].
  destruct (truthy value); [reflexivity | now rewrite append_empty_r].
Qed.

Lemma bullets_cons (field : string * string) (fields : list (string * string)) :
  String.concat ""
    (map bullet (filter (fun field => truthy (snd field)) (field :: fields)))
  = (if truthy (snd field) then bullet field else "")
    ++ String.concat ""
         (map bullet (filter (fun field => truthy (snd field)) fields)).
Proof.
  cbn [filter]. destruct (truthy (snd field)); [|reflexivity].
  cbn [map]. apply concat_plain_cons.
Qed.

Lemma summary_in_three_parts (p : BuyerPreferences) :
  _generate_summary p = spec_summary p.
Proof.
  unfold _generate_summary, spec_summary, summary_fields.
  rewrite !summary_line_appends, !bullets_cons.
  cbn [fst snd filter map String.concat].
  unfold summary_header, summary_footer.
  rewrite !append_associative. reflexivity.
Qed.

Lemma filter_none {A : Type} (f : A -> bool) (l : list A) :
  (forall x, In x l -> f x = false) -> filter f l = [].
Proof.
  induction l as [|x l IH]; intros H; [reflexivity|].
  cbn. rewrite (H x (or_introl eq_refl)). apply IH.
  intros y Hy. apply H. now right.
Qed.

End SummaryFacts.

Module LoopFacts.
Import PyStr PyStrFacts Search SearchFacts TextFacts DialogFacts Demo.

Lemma answers_left_step (st : ConversationState) (k : nat) :
  answers_left st = S k ->
  st <> COMPLETE /\ answers_left (next_state st) = k /\
  (k = 0 -> next_state st = COMPLETE) /\
  (k <> 0 -> next_state st <> COMPLETE).
Proof.
  destruct st; cbn; intros H; try discriminate H; injection H as <-;
    repeat split; try discriminate; try reflexivity; intros; congruence.
Qed.

Lemma is_complete_state (self : PropertyPreferenceCollector) :
  is_complete self = true <-> state self = COMPLETE.
Proof. apply state_eqb_eq. Qed.

Lemma is_complete_false (self : PropertyPreferenceCollector) :
  state self <> COMPLETE -> is_complete self = false.
Proof.
  intros H. destruct (is_complete self) eqn:E; [|reflexivity].
  apply is_complete_state in E. contradiction.
Qed.

(** The scripted loop reads as many responses as the collector still
    needs. *)
Lemma persona_loop_reads (n : nat) :
  forall (self : PropertyPreferenceCollector) (responses : list string),
    answers_left (state self) = S n ->
    persona_loop self responses
    = fst (converse self (firstn (S n) responses)).
Proof.
  induction n as [|n IH]; intros self [|r rest] Hleft; try reflexivity.
  - destruct (answers_left_step _ _ Hleft) as (_ & _ & Hdone & _).
    cbn [persona_loop firstn]. rewrite converse_cons.
    assert (is_complete (outcome_self (process_response r self)) = true) as ->.
    { apply is_complete_state.
      rewrite (proj1 (step_state_and_history self r)). now apply Hdone. }
    reflexivity.
  - destruct (answers_left_step _ _ Hleft) as (_ & Hnext & _ & Hnot).
    cbn [persona_loop]. change (firstn (S (S n)) (r :: rest))
      with (r :: firstn (S n) rest).
    rewrite converse_cons.
    assert (is_complete (outcome_self (process_response r self)) = false) as ->.
    { apply is_complete_false.
      rewrite (proj1 (step_state_and_history self r)). now apply Hnot. }
    apply IH. now rewrite (proj1 (step_state_and_history self r)).
Qed.




End LoopFacts.

Import Demo.

(** X1.  Whatever the state, a call adds exactly two lines to the
    conversation history: the user's input and the reply it returns; after
    any number of answers the history has grown by two lines per answer. *)
Theorem transcript_records_every_exchange
    (self : PropertyPreferenceCollector) (user_input : string)
    (answers : list string) :
  (let o := process_response user_input self in
   conversation_history (outcome_self o)
   = (conversation_history self
      ++ [("User: " ++ user_input)%string;
          ("Assistant: " ++ outcome_response o)%string])%list) /\
  length (conversation_history (fst (converse self answers)))
  = length (conversation_history self) + 2 * length answers.
Proof.
  split.
  - apply (proj2 (DialogFacts.step_state_and_history self user_input)).
  - apply DialogFacts.converse_history_length.
Qed.

(** X2.  The state a call leads to depends on the current state only, never
    on the answer; from a new collector [is_complete] holds exactly when at
    least thirteen answers have been given. *)
Theorem completion_takes_thirteen_answers
    (self : PropertyPreferenceCollector) (user_input : string)
    (answers : list string) :
  state (outcome_self (process_response user_input self))
  = next_state (state self) /\
  is_complete (fst (converse new_collector answers))
  = (13 <=? length answers)%nat.
Proof.
  split; [apply (proj1 (DialogFacts.step_state_and_history self user_input))|].
  unfold is_complete. rewrite DialogFacts.converse_state.
  apply DialogFacts.steps_from_greeting.
Qed.

(** X3.  The state [PROPERTY_TYPE] is never reached from a new collector,
    and a collector put in it stays in it: no answer is stored, no state is
    assigned and it never becomes complete. *)
Theorem property_type_state_is_dead
    (self : PropertyPreferenceCollector) (answers : list string) :
  state self = PROPERTY_TYPE ->
  state (fst (converse new_collector answers)) <> PROPERTY_TYPE /\
  preferences (fst (converse self answers)) = preferences self /\
  state (fst (converse self answers)) = PROPERTY_TYPE /\
  is_complete (fst (converse self answers)) = false /\
  snd (converse self answers) = [].
Proof.
  intros Hst. split.
  - rewrite DialogFacts.converse_state.
    apply DialogFacts.never_property_type. discriminate.
  - destruct (DialogFacts.idle_run self answers (or_introl Hst))
      as (Hprefs & Hstate & Htrace).
    rewrite Hst in Hstate.
    repeat split; try assumption.
    unfold is_complete. now rewrite Hstate.
Qed.

Lemma property_type_state_is_dead_witness :
  state stranded = PROPERTY_TYPE /\
  preferences (fst (converse stranded young_professionals))
  = preferences stranded /\
  is_complete (fst (converse stranded young_professionals)) = false.
Proof.
  split; [reflexivity|].
  destruct (property_type_state_is_dead stranded young_professionals eq_refl)
    as (_ & H1 & _ & H2 & _).
  split; [exact H1 | exact H2].
Defined.

(** X4.  After any number of answers from a new collector the twelve
    question fields hold the first twelve answers, empty where none was
    given yet; the four fields without a question stay empty; the answers
    after the thirteenth change nothing. *)
Theorem record_after_any_conversation (answers : list string) :
  let final := fst (converse new_collector answers) in
  read_fields dialog_fields (preferences final) = first_answers 12 answers /\
  read_fields unasked_fields (preferences final) = ["" ; ""; ""; ""] /\
  additional_info (preferences final)
  = (if (13 <=? length answers)%nat
     then if affirmative (nth 12 answers "") then "" else nth 12 answers ""
     else "").
Proof.
  cbv zeta.
  do 13 (destruct answers as [|? answers];
         [vm_compute; repeat split|]).
  rename s into a1, s0 into a2, s1 into a3, s2 into a4, s3 into a5,
    s4 into a6, s5 into a7, s6 into a8, s7 into a9, s8 into a10,
    s9 into a11, s10 into a12, s11 into a13.
  pose proof (SearchFacts.converse_app new_collector
                [a1; a2; a3; a4; a5; a6; a7; a8; a9; a10; a11; a12; a13]
                answers) as Happ.
  cbn [app] in Happ. rewrite Happ. clear Happ. cbn [fst].
  destruct (SearchFacts.thirteen_run_result
              a1 a2 a3 a4 a5 a6 a7 a8 a9 a10 a11 a12 a13)
    as (final & trace12 & last & Hrun & Hst & Hprefs & _ & _).
  rewrite Hrun. cbn [fst].
  destruct (DialogFacts.idle_run final answers (or_intror Hst)) as (Hkeep & _ & _).
  rewrite Hkeep, Hprefs.
  cbn [length Nat.leb nth]. unfold first_answers. cbn [app firstn].
  destruct (affirmative a13); repeat split.
Qed.

(** X5.  The summary is the header, one bullet line per field that has a
    value, in the order of the questions, and the closing question; so the
    bullet of every non-empty field occurs in it, and with no field filled
    it is the header followed by the closing question. *)
Theorem summary_lists_the_stated_fields (p : BuyerPreferences) :
  _generate_summary p = spec_summary p /\
  (forall field,
     In field (summary_fields p) -> snd field <> "" ->
     Substring (bullet field) (_generate_summary p)) /\
  ((forall field, In field (summary_fields p) -> snd field = "") ->
   _generate_summary p = summary_header ++ summary_footer).
Proof.
  rewrite SummaryFacts.summary_in_three_parts. split; [reflexivity|]. split.
  - intros field Hin Hvalue. unfold spec_summary.
    apply TextFacts.Substring_app_r, TextFacts.Substring_app_l.
    apply TextFacts.concat_plain_In, in_map, filter_In. split; [exact Hin|].
    now apply PyStrFacts.truthy_nonempty.
  - intros Hempty. unfold spec_summary.
    rewrite SummaryFacts.filter_none; [reflexivity|].
    intros field Hin. rewrite (Hempty field Hin). reflexivity.
Qed.

Lemma summary_lists_the_stated_fields_witness :
  In ("Budget", "£450,000 to £550,000")
    (summary_fields (preferences awaiting_confirmation)) /\
  Substring (bullet ("Budget", "£450,000 to £550,000"))
    (_generate_summary (preferences awaiting_confirmation)) /\
  _generate_summary BuyerPreferences_default = summary_header ++ summary_footer.
Proof.
  assert (In ("Budget", "£450,000 to £550,000")
            (summary_fields (preferences awaiting_confirmation))) as Hin
      by (right; left; reflexivity).
  split; [exact Hin|]. split.
  - exact (proj1 (proj2 (summary_lists_the_stated_fields
                           (preferences awaiting_confirmation)))
             _ Hin ltac:(discriminate)).
  - apply (proj2 (proj2 (summary_lists_the_stated_fields
                           BuyerPreferences_default))).
    intros field Hfield. cbn in Hfield.
    repeat (destruct Hfield as [<- | Hfield]; [reflexivity|]).
    destruct Hfield.
Defined.



(** X7.  The scripted demo resets the collector and feeds it at most the
    first thirteen responses of the script; it ends complete exactly when
    the script has thirteen responses or more. *)
Theorem persona_demo_reads_thirteen_answers
    (collector : PropertyPreferenceCollector) (responses : list string) :
  run_persona_demo collector responses
  = fst (converse new_collector (firstn 13 responses)) /\
  is_complete (run_persona_demo collector responses)
  = (13 <=? length responses)%nat.
Proof.
  assert (run_persona_demo collector responses
          = fst (converse new_collector (firstn 13 responses))) as H
      by (apply (LoopFacts.persona_loop_reads 12); reflexivity).
  split; [exact H|]. rewrite H. unfold is_complete.
  rewrite DialogFacts.converse_state. cbn [state new_collector].
  rewrite DialogFacts.steps_from_greeting, length_firstn.
  destruct (Nat.leb_spec 13 (length responses));
    destruct (Nat.leb_spec 13 (Nat.min 13 (length responses))); lia.
Qed.


(* ===================================================================== *)
(** ** Further properties of the personalizer *)
(* ===================================================================== *)

Module TailoringFacts.
Import PyStr PyStrFacts Search Personalize PersonalizeFacts TextFacts.

Lemma personalize_one_printed {Score : Type} (chain : Chain)
    (p : BuyerPreferences)
    (acc : list (PersonalizedListing Score) * list string)
    (r : SearchResult Score) :
  snd (personalize_one chain p (_extract_preference_context p) acc r)
  = (snd acc
     ++ match chain (rewrite_request p r) with
        | inl _ => []
        | inr failure =>
            [("Warning: Could not personalize listing - " ++ failure)%string]
        end)%list.
Proof.
  destruct acc as [listings printed].
  unfold personalize_one, _generate_personalized_description, rewrite_request.
  destruct (chain _); cbn; [now rewrite app_nil_r | reflexivity].
Qed.

Lemma personalize_printed {Score : Type} (chain : Chain) (p : BuyerPreferences)
    (results : list (SearchResult Score))
    (acc : list (PersonalizedListing Score) * list string) :
  snd (fold_left (personalize_one chain p (_extract_preference_context p))
         results acc)
  = (snd acc
     ++ flat_map (fun r =>
                    match chain (rewrite_request p r) with
                    | inl _ => []
                    | inr failure =>
                        [("Warning: Could not personalize listing - "
                          ++ failure)%string]
                    end) results)%list.
Proof.
  revert acc. induction results as [|r results IH]; intros acc;
    cbn [fold_left flat_map].
  - now rewrite app_nil_r.
  - rewrite IH, personalize_one_printed. now rewrite <- app_assoc.
Qed.

Lemma dict_get_missing (key default : string) (d : Dict) :
  (forall value, ~ In (key, value) d) -> dict_get key default d = default.
Proof.
  induction d as [|[k v] d IH]; intros H; [reflexivity|].
  cbn. destruct (String.eqb_spec k key) as [-> | _].
  - elim (H v). now left.
  - apply IH. intros value Hin. apply (H value). now right.
Qed.

Lemma lower_empty (s : string) : lower s = "" -> s = "".
Proof. destruct s; [reflexivity | discriminate]. Qed.

Lemma nothing_in_empty (word content : string) :
  lower content = "" -> mentions content word -> word = "".
Proof.
  unfold mentions, Substring. intros -> (before & after & H).
  destruct before; [|discriminate]. destruct word; [reflexivity | discriminate].
Qed.

End TailoringFacts.

Module LabelFacts.
Import PyStr PyStrFacts Search Personalize PersonalizeFacts.




End LabelFacts.

(** X9.  Whether the rewrite succeeds or fails, the listings keep, result
    by result and in order, the original content, the similarity score and
    the metadata, and take their category from the metadata. *)
Theorem personalization_keeps_the_results {Score : Type} (chain : Chain)
    (search_results : list (SearchResult Score)) (p : BuyerPreferences) :
  let listings := fst (personalize_listings chain search_results p) in
  map original_content listings = map content search_results /\
  map listing_score listings = map similarity_score search_results /\
  map listing_metadata listings = map metadata search_results /\
  map category listings
  = map (fun r => dict_get "category" "Unknown" (metadata r)) search_results.
Proof.
  cbv zeta. rewrite PersonalizeFacts.personalize_listings_map, !map_map.
  repeat split; apply map_ext; intros r; unfold listing_for;
    now destruct (_generate_personalized_description _ _ _ _ _).
Qed.

(** X10.  [personalize_listings] prints one warning, carrying the failure
    message, for each result whose rewrite fails, in order, and nothing
    else. *)
Theorem one_warning_per_failed_rewrite {Score : Type} (chain : Chain)
    (search_results : list (SearchResult Score)) (p : BuyerPreferences) :
  snd (personalize_listings chain search_results p)
  = flat_map (fun r =>
                match chain (rewrite_request p r) with
                | inl _ => []
                | inr failure =>
                    [("Warning: Could not personalize listing - "
                      ++ failure)%string]
                end) search_results /\
  length (snd (personalize_listings chain search_results p))
  = length (filter (fun r =>
                      match chain (rewrite_request p r) with
                      | inl _ => false
                      | inr _ => true
                      end) search_results).
Proof.
  assert (snd (personalize_listings chain search_results p)
          = flat_map (fun r =>
                        match chain (rewrite_request p r) with
                        | inl _ => []
                        | inr failure =>
                            [("Warning: Could not personalize listing - "
                              ++ failure)%string]
                        end) search_results) as H
      by (unfold personalize_listings;
          now rewrite TailoringFacts.personalize_printed).
  split; [exact H|]. rewrite H. clear H.
  induction search_results as [|r rs IH]; [reflexivity|].
  cbn [flat_map filter]. rewrite length_app, IH.
  now destruct (chain (rewrite_request p r)).
Qed.



(** X12.  A result whose metadata has no category gives a listing of
    category "Unknown", whether its rewrite succeeds or not. *)
Theorem missing_category_is_unknown {Score : Type} (chain : Chain)
    (search_results : list (SearchResult Score)) (p : BuyerPreferences)
    (i : nat) (result : SearchResult Score) :
  nth_error search_results i = Some result ->
  (forall value, ~ In ("category", value) (metadata result)) ->
  exists listing,
    nth_error (fst (personalize_listings chain search_results p)) i
    = Some listing /\
    category listing = "Unknown".
Proof.
  intros Hnth Hmissing.
  rewrite PersonalizeFacts.personalize_listings_map.
  rewrite (map_nth_error _ _ _ Hnth).
  eexists. split; [reflexivity|].
  unfold listing_for.
  destruct (_generate_personalized_description _ _ _ _ _); cbn;
    now apply TailoringFacts.dict_get_missing.
Qed.

Lemma missing_category_is_unknown_witness :
  nth_error [sample_result; untagged_result] 1 = Some untagged_result /\
  (forall value, ~ In ("category", value) (metadata untagged_result)) /\
  exists listing,
    nth_error (fst (personalize_listings unavailable
                      [sample_result; untagged_result]
                      (preferences finished))) 1 = Some listing /\
    category listing = "Unknown".
Proof.
  assert (forall value, ~ In ("category", value) (metadata untagged_result))
    as Hmissing.
  { intros value [H | [H | []]]; discriminate H. }
  split; [reflexivity|]. split; [exact Hmissing|].
  exact (missing_category_is_unknown unavailable
           [sample_result; untagged_result] (preferences finished) 1
           untagged_result eq_refl Hmissing).
Defined.

(** X13.  The highlights depend on the content only through its lower-case
    form, and on the preferences only through property type, bedrooms,
    outdoor space, preferred areas, transport preference and amenities. *)
Theorem highlights_use_six_fields_and_the_lowered_content
    (c1 c2 : string) (p1 p2 : BuyerPreferences) :
  lower c1 = lower c2 ->
  property_type p1 = property_type p2 ->
  bedrooms p1 = bedrooms p2 ->
  outdoor_space p1 = outdoor_space p2 ->
  preferred_areas p1 = preferred_areas p2 ->
  transport_preference p1 = transport_preference p2 ->
  amenities p1 = amenities p2 ->
  _identify_preference_highlights c1 p1 = _identify_preference_highlights c2 p2.
Proof.
  intros Hc H1 H2 H3 H4 H5 H6.
  rewrite !PersonalizeFacts.highlights_run_the_rules.
  unfold spec_highlights, highlight_rules. cbn [flat_map].
  unfold rule_property_type, rule_bedrooms, rule_outdoor_space,
    rule_preferred_areas, rule_transport, rule_amenities,
    matched_amenity_words, found_in.
  now rewrite Hc, H1, H2, H3, H4, H5, H6.
Qed.

Lemma highlights_use_six_fields_and_the_lowered_content_witness :
  lower "A BRIGHT 2 BEDROOM FLAT" = lower "a bright 2 bedroom flat" /\
  _identify_preference_highlights "A BRIGHT 2 BEDROOM FLAT"
    (preferences finished)
  = _identify_preference_highlights "a bright 2 bedroom flat"
      (preferences awaiting_confirmation).
Proof.
  split; [reflexivity|].
  apply highlights_use_six_fields_and_the_lowered_content;
    vm_compute; reflexivity.
Defined.

(** X14.  No highlight is found when the six consulted preferences are all
    empty, nor when the content is empty. *)
Theorem nothing_to_highlight (content : string) (p : BuyerPreferences) :
  (property_type p = "" /\ bedrooms p = "" /\ outdoor_space p = ""
   /\ preferred_areas p = "" /\ transport_preference p = ""
   /\ amenities p = "")
  \/ content = "" ->
  _identify_preference_highlights content p = [].
Proof.
  intros H.
  rewrite PersonalizeFacts.highlights_run_the_rules.
  unfold spec_highlights.
  assert (forall rule spec,
             implements rule spec -> ~ fires spec content p ->
             label_list (rule content p) = []) as Hnone.
  { intros rule spec Himpl Hno.
    now rewrite (proj2 (Himpl content p) Hno). }
  unfold highlight_rules. cbn [flat_map].
  rewrite (Hnone _ _ PersonalizeFacts.rule_property_type_ok),
    (Hnone _ _ PersonalizeFacts.rule_bedrooms_ok),
    (Hnone _ _ PersonalizeFacts.rule_outdoor_space_ok),
    (Hnone _ _ PersonalizeFacts.rule_preferred_areas_ok),
    (Hnone _ _ PersonalizeFacts.rule_transport_ok),
    (Hnone _ _ PersonalizeFacts.rule_amenities_ok); [reflexivity|..];
    cbn [fires amenities_spec transport_spec preferred_areas_spec
         outdoor_space_spec bedrooms_spec property_type_spec];
    unfold stated;
    (destruct H as [(H1 & H2 & H3 & H4 & H5 & H6) | ->];
     [intros [Hs _]; congruence|]).
  - intros (_ & w & _ & Hlong & Hw).
    apply (TailoringFacts.nothing_in_empty w "" eq_refl) in Hw. subst w.
    cbn in Hlong. lia.
  - intros (_ & w & Hin & Hw).
    apply (TailoringFacts.nothing_in_empty w "" eq_refl) in Hw. subst w.
    cbn in Hin. intuition discriminate.
  - intros (_ & w & _ & Hlong & Hw).
    apply (TailoringFacts.nothing_in_empty w "" eq_refl) in Hw. subst w.
    cbn in Hlong. lia.
  - intros (_ & _ & w & Hin & Hw).
    apply (TailoringFacts.nothing_in_empty w "" eq_refl) in Hw. subst w.
    cbn in Hin. intuition discriminate.
  - intros (_ & [Hw | Hw]);
      apply (TailoringFacts.nothing_in_empty _ "" eq_refl) in Hw; discriminate.
  - intros (Hs & Hw).
    apply (TailoringFacts.nothing_in_empty _ "" eq_refl) in Hw.
    apply TailoringFacts.lower_empty in Hw. contradiction.
Qed.

Lemma nothing_to_highlight_witness :
  _identify_preference_highlights "" (preferences finished) = [] /\
  _identify_preference_highlights "A 4 bedroom house with a large garden"
    BuyerPreferences_default = [].
Proof.
  split.
  - exact (nothing_to_highlight "" (preferences finished) (or_intror eq_refl)).
  - apply nothing_to_highlight. left. repeat split.
Defined.


Import Store.

(** C6, evaluated.  A store fresh from its constructor refuses every search
    with the not-initialized error.  After [setup_vectorstore()] has failed
    on a first run (empty collection, no corpus file: it returns [False] and
    nothing is ingested or loaded), the handle assigned by the load attempt
    is still set, so the guard of [semantic_search] passes and the search
    returns an empty list instead of raising. *)
Theorem failed_setup_defeats_search_guard :
  (forall (Score : Type) (w : World Score) persist_directory query k
          filter_dict,
     semantic_search w (new_store persist_directory) query k filter_dict
     = Raise (ValueError
                "Vector store not initialized. Call setup_vectorstore() first."))
  /\ fst (fst after_first_setup) = Return false
  /\ collection (snd (fst after_first_setup)) = []
  /\ vectorstore (snd after_first_setup)
     = Some (mkChroma "data/chroma_db" "london_properties")
  /\ semantic_search (snd (fst after_first_setup)) (snd after_first_setup)
       "modern flat with good transport links" 3 None
     = Return [].
Proof.
  split; [|repeat split].
  intros Score w persist_directory query k filter_dict.
  now apply StoreFacts.search_without_handle.
Qed.




(* ===================================================================== *)
(** ** Further properties of the vector store *)
(* ===================================================================== *)

Module IngestFacts.
Import PyStr Store.

Lemma listings_of_category_spec (uuid : nat -> string) (category : string)
    (texts : list string) :
  forall i drawn,
    let listings := listings_of_category uuid category i drawn texts in
    map content listings = texts /\
    map Store.category listings = repeat category (length texts) /\
    Forall (fun listing =>
              exists j n,
                id listing
                = category ++ "_" ++ str_of_nat j ++ "_"
                  ++ substring 0 8 (uuid n))
           listings.
Proof.
  induction texts as [|text texts IH]; intros i drawn; cbn.
  - repeat split. constructor.
  - destruct (IH (S i) (S drawn)) as (Hc & Hcat & Hid).
    rewrite Hc, Hcat. repeat split.
    constructor; [now exists i, drawn | exact Hid].
Qed.

Lemma listings_of_items_spec (uuid : nat -> string)
    (items : list (string * list string)) :
  forall drawn,
    let listings := listings_of_items uuid drawn items in
    map content listings = concat (map snd items) /\
    map Store.category listings
    = flat_map (fun item => repeat (fst item) (length (snd item))) items /\
    Forall (fun listing =>
              exists j n,
                id listing
                = Store.category listing ++ "_" ++ str_of_nat j ++ "_"
                  ++ substring 0 8 (uuid n))
           listings.
Proof.
  induction items as [|[category texts] items IH]; intros drawn; cbn.
  - repeat split. constructor.
  - destruct (IH (drawn + length texts)) as (Hc & Hcat & Hid).
    destruct (listings_of_category_spec uuid category texts 0 drawn)
      as (Hc1 & Hcat1 & Hid1).
    rewrite !map_app, Hc, Hcat, Hc1, Hcat1. repeat split.
    apply Forall_app. split; [|exact Hid].
    assert (Forall (fun listing => Store.category listing = category)
              (listings_of_category uuid category 0 drawn texts)) as Hsame.
    { apply Forall_forall. intros listing Hin.
      apply (in_map Store.category) in Hin. rewrite Hcat1 in Hin.
      now apply repeat_spec in Hin. }
    apply Forall_forall. intros listing Hin.
    rewrite Forall_forall in Hid1, Hsame.
    rewrite (Hsame listing Hin). now apply Hid1.
Qed.

Lemma listings_count (uuid : nat -> string) (drawn : nat)
    (items : list (string * list string)) :
  length (listings_of_items uuid drawn items) = corpus_size items.
Proof.
  unfold corpus_size.
  rewrite <- (proj1 (listings_of_items_spec uuid items drawn)).
  now rewrite length_map.
Qed.

End IngestFacts.

Module SetupFacts.
Import PyStr Store.

(** Every way [setup_vectorstore] can return [True]: the existing
    collection was loaded, or the corpus was ingested into it. *)
Lemma setup_success {Score : Type} (w : World Score)
    (self : PropertyVectorStore) (force_rebuild : bool) :
  fst (fst (setup_vectorstore force_rebuild w self)) = Return true ->
  let w' := snd (fst (setup_vectorstore force_rebuild w self)) in
  let self' := snd (setup_vectorstore force_rebuild w self) in
  self' = mkStore (persist_directory self)
            (Some (mkChroma (persist_directory self) "london_properties")) /\
  chroma_fault w' = chroma_fault w /\
  nearest w' = nearest w /\
  ((force_rebuild = false /\ collection w <> []
    /\ collection w' = collection w)
   \/ exists raw_data,
        corpus w = Parsed raw_data
        /\ listings_of_items (uuid4 w) (uuids_drawn w) raw_data <> []
        /\ collection w'
           = (collection w
              ++ create_documents
                   (listings_of_items (uuid4 w) (uuids_drawn w) raw_data))%list).
Proof.
  unfold setup_vectorstore, load_existing_vectorstore,
    load_listings_from_json, initialize_vectorstore.
  destruct force_rebuild; cbn [negb andb];
    [|destruct (chroma_fault w OpenCollection);
      [|destruct (chroma_fault w CountCollection);
        [|destruct (collection w) as [|doc docs] eqn:Hcoll]]];
    cbn [Nat.ltb Nat.leb length andb fst snd corpus print draw_uuids
         chroma_fault collection];
    try (intros _; rewrite ?Hcoll; repeat split; left; repeat split;
         discriminate);
    (destruct (corpus w) as [| |raw_data]; cbn [fst snd];
     try discriminate;
     cbn [uuid4 uuids_drawn print draw_uuids];
     destruct (listings_of_items (uuid4 w) (uuids_drawn w) raw_data)
       as [|listing listings] eqn:El; cbn [fst snd]; try discriminate;
     cbn [chroma_fault print draw_uuids];
     destruct (chroma_fault w FromDocuments); cbn; try discriminate;
     intros _; repeat split; right; exists raw_data; rewrite El, ?Hcoll;
     repeat split; discriminate).
Qed.

Lemma two_last_lines (printed : list string) (a b : string) :
  exists earlier, push (push printed a) b = (earlier ++ [a; b])%list.
Proof. exists printed. unfold push. now rewrite <- app_assoc. Qed.

End SetupFacts.

Module PipelineFacts.
Import PyStr Store.

Lemma listing_of_category_origin (uuid : nat -> string) (category : string)
    (texts : list string) (listing : PropertyListing) :
  forall i drawn,
    In listing (listings_of_category uuid category i drawn texts) ->
    In (content listing) texts /\ Store.category listing = category.
Proof.
  induction texts as [|text texts IH]; intros i drawn; cbn; [intros []|].
  intros [<- | Hin]; [cbn; auto|].
  destruct (IH _ _ Hin). auto.
Qed.

Lemma listing_origin (uuid : nat -> string)
    (items : list (string * list string)) (listing : PropertyListing) :
  forall drawn,
    In listing (listings_of_items uuid drawn items) ->
    exists category texts,
      In (category, texts) items /\ In (content listing) texts
      /\ Store.category listing = category.
Proof.
  induction items as [|[category texts] items IH]; intros drawn; cbn;
    [intros []|].
  rewrite in_app_iff. intros [Hin | Hin].
  - apply listing_of_category_origin in Hin as [Hc Hcat].
    exists category, texts. auto.
  - destruct (IH _ Hin) as (cat & txts & H1 & H2 & H3).
    exists cat, txts. auto.
Qed.

End PipelineFacts.

Module SampleFacts.
Import Store.

Lemma firstn_keeps {A : Type} (n : nat) (l : list A) (x : A) :
  In x (firstn n l) -> In x l.
Proof.
  intros H. rewrite <- (firstn_skipn n l). apply in_or_app. now left.
Qed.

(** The ranking of the sample worlds only returns stored documents. *)
Lemma sample_ranking_is_sound (documents : list Document) (q : string)
    (n : Z) (f : option Dict) (hit : Document * nat) :
  In hit (nearest sample_run documents q n f) -> In (fst hit) documents.
Proof.
  destruct hit as [doc score]. cbn. intros H.
  apply in_combine_l in H. now apply firstn_keeps in H.
Qed.

End SampleFacts.



(** X17.  [create_documents] makes one document per listing, in order,
    whose content is the listing's and whose metadata give back the
    listing's identifier and category and the source tag. *)
Theorem documents_carry_listing_metadata (listings : list PropertyListing) :
  length (create_documents listings) = length listings /\
  map page_content (create_documents listings) = map content listings /\
  map (fun doc => dict_get "category" "Unknown" (metadata doc))
    (create_documents listings) = map category listings /\
  map (fun doc => dict_get "id" "" (metadata doc)) (create_documents listings)
  = map id listings /\
  Forall (fun doc => dict_get "source" "" (metadata doc) = "generated_listings")
    (create_documents listings).
Proof.
  unfold create_documents. rewrite length_map, !map_map. cbn.
  repeat split. apply Forall_forall. intros doc Hin.
  apply in_map_iff in Hin as (listing & <- & _). reflexivity.
Qed.

(** X18.  [load_existing_vectorstore] answers [True] exactly when the
    database opens, can be counted and holds at least one document.  It
    never changes the collection; it sets the handle as soon as the
    database opens, whatever it answers, and leaves it alone otherwise. *)
Theorem existing_store_loads_iff_populated {Score : Type} (w : World Score)
    (self : PropertyVectorStore) :
  let outcome := load_existing_vectorstore w self in
  (fst (fst outcome) = true
   <-> chroma_fault w OpenCollection = None
       /\ chroma_fault w CountCollection = None
       /\ collection w <> []) /\
  collection (snd (fst outcome)) = collection w /\
  (chroma_fault w OpenCollection = None ->
   vectorstore (snd outcome)
   = Some (mkChroma (persist_directory self) "london_properties")) /\
  (chroma_fault w OpenCollection <> None ->
   vectorstore (snd outcome) = vectorstore self).
Proof.
  unfold load_existing_vectorstore.
  destruct (chroma_fault w OpenCollection) as [e|];
    [|destruct (chroma_fault w CountCollection) as [e|];
      [|destruct (collection w) as [|doc docs] eqn:Hcoll]];
    cbn; rewrite ?Hcoll; repeat split; try congruence;
    try (intros (? & ? & ?); congruence); try (intros H; discriminate H);
    try (intros H; now elim H).
Qed.

Lemma existing_store_loads_iff_populated_witness :
  chroma_fault populated_run OpenCollection = None /\
  chroma_fault populated_run CountCollection = None /\
  collection populated_run <> [] /\
  fst (fst (load_existing_vectorstore populated_run
              (new_store "data/chroma_db"))) = true /\
  vectorstore (snd (load_existing_vectorstore populated_run
                      (new_store "data/chroma_db")))
  = Some (mkChroma "data/chroma_db" "london_properties").
Proof.
  assert (collection populated_run <> []) as Hdocs
      by (vm_compute; discriminate).
  split; [reflexivity|]. split; [reflexivity|]. split; [exact Hdocs|].
  destruct (existing_store_loads_iff_populated populated_run
              (new_store "data/chroma_db")) as (Hiff & _ & Hset & _).
  split.
  - apply Hiff. split; [reflexivity|]. split; [reflexivity | exact Hdocs].
  - exact (Hset eq_refl).
Defined.

(** X19.  Without forced rebuild, a populated collection that opens is
    loaded: [setup_vectorstore] returns [True] after printing one line,
    reads no corpus, draws no uuid and adds no document. *)
Theorem setup_prefers_the_existing_collection {Score : Type} (w : World Score)
    (self : PropertyVectorStore) :
  chroma_fault w OpenCollection = None ->
  chroma_fault w CountCollection = None ->
  collection w <> [] ->
  setup_vectorstore false w self
  = (Return true,
     print ("Loaded existing vector store with "
            ++ str_of_nat (length (collection w)) ++ " documents") w,
     mkStore (persist_directory self)
       (Some (mkChroma (persist_directory self) "london_properties"))).
Proof.
  intros Hopen Hcount Hdocs.
  unfold setup_vectorstore, load_existing_vectorstore.
  cbn [negb]. rewrite Hopen, Hcount.
  destruct (collection w) as [|doc docs] eqn:Hcoll; [now elim Hdocs|].
  reflexivity.
Qed.

Lemma setup_prefers_the_existing_collection_witness :
  collection populated_run <> [] /\
  fst (fst (setup_vectorstore false populated_run (new_store "data/chroma_db")))
  = Return true /\
  collection
    (snd (fst (setup_vectorstore false populated_run
                 (new_store "data/chroma_db"))))
  = collection populated_run.
Proof.
  assert (collection populated_run <> []) as Hdocs
      by (vm_compute; discriminate).
  split; [exact Hdocs|].
  rewrite (setup_prefers_the_existing_collection populated_run
             (new_store "data/chroma_db") eq_refl eq_refl Hdocs).
  split; reflexivity.
Defined.

(** X20.  After [setup_vectorstore] has returned [True] the handle is set,
    the collection is not empty and no search raises the not-initialized
    error. *)
Theorem successful_setup_enables_search {Score : Type} (w : World Score)
    (self : PropertyVectorStore) (force_rebuild : bool) :
  fst (fst (setup_vectorstore force_rebuild w self)) = Return true ->
  let w' := snd (fst (setup_vectorstore force_rebuild w self)) in
  let self' := snd (setup_vectorstore force_rebuild w self) in
  vectorstore self'
  = Some (mkChroma (persist_directory self) "london_properties") /\
  collection w' <> [] /\
  forall query k filter_dict,
    semantic_search w' self' query k filter_dict
    <> Raise (ValueError
                "Vector store not initialized. Call setup_vectorstore() first.").
Proof.
  intros Hok w' self'.
  destruct (SetupFacts.setup_success w self force_rebuild Hok)
    as (Hself & _ & _ & Hdocs).
  fold w' self' in Hself, Hdocs.
  split; [now rewrite Hself|]. split.
  - destruct Hdocs as [(_ & Hne & ->) | (raw & _ & Hne & ->)]; [exact Hne|].
    intros H. apply app_eq_nil in H as [_ H].
    unfold create_documents in H. apply map_eq_nil in H. contradiction.
  - intros query k filter_dict. unfold semantic_search. rewrite Hself.
    cbn [vectorstore]. destruct (chroma_fault w' SimilaritySearch); discriminate.
Qed.

Lemma successful_setup_enables_search_witness :
  fst (fst (setup_vectorstore true sample_run (new_store "data/chroma_db")))
  = Return true /\
  collection populated_run <> [] /\
  semantic_search populated_run
    (snd (setup_vectorstore true sample_run (new_store "data/chroma_db")))
    "a family house" 1 None
  <> Raise (ValueError
              "Vector store not initialized. Call setup_vectorstore() first.").
Proof.
  assert (fst (fst (setup_vectorstore true sample_run
                      (new_store "data/chroma_db"))) = Return true) as Hok
      by (vm_compute; reflexivity).
  split; [exact Hok|].
  destruct (successful_setup_enables_search sample_run
              (new_store "data/chroma_db") true Hok) as (_ & H1 & H2).
  split; [exact H1 | exact (H2 "a family house" 1%Z None)].
Defined.

(** X21.  After a successful setup, with a database that can be counted,
    [get_stats] reports the size of the collection, which is positive, and
    the persist directory; on a store fresh from its constructor it reports
    the not-initialized error instead. *)
Theorem stats_after_a_successful_setup {Score : Type} (w : World Score)
    (self : PropertyVectorStore) (force_rebuild : bool) :
  fst (fst (setup_vectorstore force_rebuild w self)) = Return true ->
  chroma_fault w CountCollection = None ->
  let w' := snd (fst (setup_vectorstore force_rebuild w self)) in
  let self' := snd (setup_vectorstore force_rebuild w self) in
  get_stats w' self'
  = [ ("total_documents", IntValue (length (collection w')));
      ("persist_directory", StrValue (persist_directory self)) ] /\
  0 < length (collection w') /\
  get_stats w (new_store (persist_directory self))
  = [("error", StrValue "Vector store not initialized")].
Proof.
  intros Hok Hcount w' self'.
  destruct (SetupFacts.setup_success w self force_rebuild Hok)
    as (Hself & Hfault & _ & Hdocs).
  fold w' self' in Hself, Hfault, Hdocs.
  unfold get_stats. rewrite Hself. cbn [vectorstore persist_directory].
  rewrite Hfault, Hcount.
  split; [reflexivity|]. split; [|reflexivity].
  destruct Hdocs as [(_ & Hne & ->) | (raw & _ & Hne & ->)].
  - destruct (collection w); [now elim Hne | cbn; lia].
  - rewrite length_app. unfold create_documents. rewrite length_map.
    destruct (listings_of_items (uuid4 w) (uuids_drawn w) raw);
      [now elim Hne | cbn; lia].
Qed.

Lemma stats_after_a_successful_setup_witness :
  fst (fst (setup_vectorstore true sample_run (new_store "data/chroma_db")))
  = Return true /\
  chroma_fault sample_run CountCollection = None /\
  get_stats populated_run
    (snd (setup_vectorstore true sample_run (new_store "data/chroma_db")))
  = [ ("total_documents", IntValue (length (collection populated_run)));
      ("persist_directory", StrValue "data/chroma_db") ].
Proof.
  assert (fst (fst (setup_vectorstore true sample_run
                      (new_store "data/chroma_db"))) = Return true) as Hok
      by (vm_compute; reflexivity).
  split; [exact Hok|]. split; [reflexivity|].
  exact (proj1 (stats_after_a_successful_setup sample_run
                  (new_store "data/chroma_db") true Hok eq_refl)).
Defined.

(** X22.  A readable corpus that holds no listing text is treated like a
    missing one: the ingest reports zero listings loaded, then "No listings
    found", returns [False] and leaves the collection as it was. *)
Theorem empty_corpus_is_reported_like_a_missing_one {Score : Type}
    (w : World Score) (self : PropertyVectorStore) (force_rebuild : bool)
    (raw_data : list (string * list string)) :
  attempts_ingest force_rebuild w self = true ->
  corpus w = Parsed raw_data ->
  corpus_size raw_data = 0 ->
  let outcome := setup_vectorstore force_rebuild w self in
  fst (fst outcome) = Return false /\
  collection (snd (fst outcome)) = collection w /\
  exists earlier,
    stdout (snd (fst outcome))
    = (earlier ++ [ "Loaded 0 property listings from data/listings.json";
                    "No listings found. Cannot create vector store." ])%list.
Proof.
  intros Hattempt Hcorpus Hsize.
  assert (forall uuid drawn, listings_of_items uuid drawn raw_data = [])
    as Hnone.
  { intros uuid drawn. apply length_zero_iff_nil.
    now rewrite IngestFacts.listings_count. }
  unfold attempts_ingest in Hattempt.
  unfold setup_vectorstore.
  destruct force_rebuild; cbn [negb andb orb] in *.
  - unfold load_listings_from_json. cbn [corpus print].
    rewrite Hcorpus. cbn [uuid4 uuids_drawn print]. rewrite Hnone.
    cbn. repeat split. apply SetupFacts.two_last_lines.
  - destruct (StoreFacts.load_existing_only_prints w self) as [line Hline].
    destruct (load_existing_vectorstore w self) as [[loaded w1] self1].
    cbn [fst snd] in *. apply negb_true_iff in Hattempt. subst loaded w1.
    unfold load_listings_from_json. cbn [corpus print].
    rewrite Hcorpus. cbn [uuid4 uuids_drawn print]. rewrite Hnone.
    cbn. repeat split. apply SetupFacts.two_last_lines.
Qed.

Lemma empty_corpus_is_reported_like_a_missing_one_witness :
  attempts_ingest false empty_corpus_run (new_store "data/chroma_db") = true /\
  corpus_size [("family_areas", []); ("young_professionals", [])] = 0 /\
  fst (fst (setup_vectorstore false empty_corpus_run
              (new_store "data/chroma_db"))) = Return false /\
  collection
    (snd (fst (setup_vectorstore false empty_corpus_run
                 (new_store "data/chroma_db"))))
  = [].
Proof.
  split; [reflexivity|]. split; [reflexivity|].
  destruct (empty_corpus_is_reported_like_a_missing_one empty_corpus_run
              (new_store "data/chroma_db") false _ eq_refl eq_refl eq_refl)
    as (H1 & H2 & _).
  split; [exact H1 | exact H2].
Defined.

(** X23.  From ingest to personalization: when an empty collection has been
    filled from the corpus and the database only returns stored documents,
    every personalized listing of every search shows a text of the corpus
    under the category the corpus files it in. *)
Theorem listings_keep_their_corpus_category {Score : Type} (w : World Score)
    (self : PropertyVectorStore) (force_rebuild : bool)
    (raw_data : list (string * list string)) (chain : Chain)
    (p : BuyerPreferences) (query : string) (k : Z)
    (filter_dict : option Dict) (results : list (SearchResult Score)) :
  corpus w = Parsed raw_data ->
  collection w = [] ->
  (forall documents q n f hit,
     In hit (nearest w documents q n f) -> In (fst hit) documents) ->
  fst (fst (setup_vectorstore force_rebuild w self)) = Return true ->
  semantic_search (snd (fst (setup_vectorstore force_rebuild w self)))
    (snd (setup_vectorstore force_rebuild w self)) query k filter_dict
  = Return results ->
  Forall (fun listing =>
            exists category texts,
              In (category, texts) raw_data
              /\ In (Personalize.original_content listing) texts
              /\ Personalize.category listing = category)
         (fst (Personalize.personalize_listings chain results p)).
Proof.
  intros Hcorpus Hempty Hnearest Hok Hsearch.
  destruct (SetupFacts.setup_success w self force_rebuild Hok)
    as (Hself & _ & Hsame & Hdocs).
  cbv zeta in Hself, Hsame, Hdocs.
  destruct Hdocs as [(_ & Hne & _) | (raw & Hraw & _ & Hcoll)];
    [contradiction|].
  rewrite Hcorpus in Hraw. injection Hraw as <-.
  rewrite Hempty in Hcoll. cbn [app] in Hcoll.
  revert Hsearch. unfold semantic_search. rewrite Hself. cbn [vectorstore].
  destruct (chroma_fault _ SimilaritySearch); [discriminate|].
  rewrite Hsame, Hcoll.
  set (docs := create_documents _).
  set (hits := if filter_given filter_dict
               then nearest w docs query k filter_dict
               else nearest w docs query k None).
  assert (forall hit, In hit hits -> In (fst hit) docs) as Hhits
      by (intros hit; subst hits; destruct (filter_given filter_dict);
          apply Hnearest).
  clearbody hits. intros H. injection H as <-.
  rewrite PersonalizeFacts.personalize_listings_map, map_map.
  apply Forall_forall. intros listing Hin.
  apply in_map_iff in Hin as ([doc score] & <- & Hhit).
  apply Hhits in Hhit. cbn [fst] in Hhit.
  subst docs. unfold create_documents in Hhit.
  apply in_map_iff in Hhit as (l & <- & Hl).
  apply PipelineFacts.listing_origin in Hl as (category & texts & H1 & H2 & H3).
  exists category, texts. split; [exact H1|].
  unfold Personalize.listing_for.
  destruct (Personalize._generate_personalized_description _ _ _ _ _);
    cbn; rewrite H3; auto.
Qed.

Lemma listings_keep_their_corpus_category_witness :
  corpus sample_run
  = Parsed [ ("family_areas", ["A 4 bedroom house with a large garden"]);
             ("young_professionals",
              ["A bright 2 bedroom flat near the tube with a balcony"]) ] /\
  collection sample_run = [] /\
  fst (fst (setup_vectorstore true sample_run (new_store "data/chroma_db")))
  = Return true /\
  Forall (fun listing =>
            exists category texts,
              In (category, texts)
                [ ("family_areas", ["A 4 bedroom house with a large garden"]);
                  ("young_professionals",
                   ["A bright 2 bedroom flat near the tube with a balcony"]) ]
              /\ In (Personalize.original_content listing) texts
              /\ Personalize.category listing = category)
    (fst (Personalize.personalize_listings Personalize.unavailable
            [ mkSearchResult "A 4 bedroom house with a large garden"
                [ ("id", "family_areas_0_0f8fad5b");
                  ("category", "family_areas");
                  ("source", "generated_listings") ] 0 ]
            (preferences Demo.finished))).
Proof.
  assert (fst (fst (setup_vectorstore true sample_run
                      (new_store "data/chroma_db"))) = Return true) as Hok
      by (vm_compute; reflexivity).
  split; [reflexivity|]. split; [reflexivity|]. split; [exact Hok|].
  apply (listings_keep_their_corpus_category sample_run
           (new_store "data/chroma_db") true _ Personalize.unavailable
           (preferences Demo.finished) "a family house" 1%Z None _
           eq_refl eq_refl SampleFacts.sample_ranking_is_sound Hok).
  vm_compute. reflexivity.
Defined.

